(** * SmartIR: controller dispatch and the batch command runner

    A shallow embedding of
    - [custom_components/smartir/controller.py] (controller registry,
      encoding check, payload shaping), and
    - [scripts/send_toshiba_commands.py] (command-table flattening and the
      interactive replay driver),
    together with the properties of the natural-language specification that
    are settled against this code. *)

From Stdlib Require Import List String Ascii Bool Arith ZArith QArith Lia.
From Stdlib Require Import DecimalString Qround Lqa.
From Equations Require Import Equations.
Import ListNotations.

Local Open Scope list_scope.
Local Open Scope string_scope.

(* ================================================================= *)
(** ** Python values *)

(** Python [str] is modelled by [string]; a character stands for the code
    point of the same number, so the strings covered are those over code
    points 0..255 (IR payloads, topics and table keys are ASCII). *)
Definition str := string.

(** Truthiness of a [str]: the empty string is falsy. *)
Definition str_truthy (s : str) : bool :=
  match s with
  | EmptyString => false
  | String _ _ => true
  end.

(** The values [json.load] can produce.  A [dict] keeps its insertion
    order, so it is an association list; a float is carried as the exact
    rational it denotes. *)
Unset Elimination Schemes.
Inductive pyvalue : Type :=
| VNone
| VBool (b : bool)
| VInt (z : Z)
| VFloat (q : Q)
| VStr (s : str)
| VList (l : list pyvalue)
| VDict (items : list (str * pyvalue)).
Set Elimination Schemes.

(** Induction principle that reaches the values nested in lists and
    dicts. *)
Section pyvalue_induction.
Variable P : pyvalue -> Prop.
Hypothesis HNone : P VNone.
Hypothesis HBool : forall b, P (VBool b).
Hypothesis HInt : forall z, P (VInt z).
Hypothesis HFloat : forall q, P (VFloat q).
Hypothesis HStr : forall s, P (VStr s).
Hypothesis HList : forall l, Forall P l -> P (VList l).
Hypothesis HDict :
  forall items, Forall (fun kv => P (snd kv)) items -> P (VDict items).

Fixpoint pyvalue_ind (v : pyvalue) : P v :=
  match v with
  | VNone => HNone
  | VBool b => HBool b
  | VInt z => HInt z
  | VFloat q => HFloat q
  | VStr s => HStr s
  | VList l =>
      HList l
        ((fix all (l : list pyvalue) : Forall P l :=
            match l with
            | [] => Forall_nil _
            | x :: l' => Forall_cons x (pyvalue_ind x) (all l')
            end) l)
  | VDict items =>
      HDict items
        ((fix all (r : list (str * pyvalue))
            : Forall (fun kv => P (snd kv)) r :=
            match r with
            | [] => Forall_nil _
            | kv :: r' => Forall_cons kv (pyvalue_ind (snd kv)) (all r')
            end) items)
  end.
End pyvalue_induction.

(** [isinstance(v, str)] and [isinstance(v, dict)]. *)
Definition is_str (v : pyvalue) : bool :=
  match v with VStr _ => true | _ => false end.

Definition is_dict (v : pyvalue) : bool :=
  match v with VDict _ => true | _ => false end.

(** [bool(v)]. *)
Definition truthy (v : pyvalue) : bool :=
  match v with
  | VNone => false
  | VBool b => b
  | VInt z => negb (Z.eqb z 0)
  | VFloat q => negb (Qeq_bool q 0)
  | VStr s => str_truthy s
  | VList l => match l with [] => false | _ => true end
  | VDict items => match items with [] => false | _ => true end
  end.

(** [d.get(key)] on the items of a dict. *)
Fixpoint dict_get (items : list (str * pyvalue)) (key : str) : option pyvalue :=
  match items with
  | [] => None
  | (k, v) :: rest => if String.eqb k key then Some v else dict_get rest key
  end.

(* ================================================================= *)
(** ** send_toshiba_commands.py: flattening the command table *)

(** A command: [(command_name, command_data)]. *)
Definition Command : Type := str * str.

(** [extract_recursive(obj, path)], lines 149-158.  The enclosing
    [all_commands] list, which the Python closure appends to, is threaded
    through as an accumulator. *)
Fixpoint extract_recursive (obj : pyvalue) (path : str)
    (all_commands : list Command) : list Command :=
  match obj with
  | VDict items =>
      (fix for_items (items : list (str * pyvalue)) (all_commands : list Command)
         : list Command :=
         match items with
         | [] => all_commands
         | (key, value) :: rest =>
             let current_path :=
               if str_truthy path then path ++ "." ++ key else key in
             match value with
             | VStr s =>
                 for_items rest (all_commands ++ [(current_path, s)])%list
             | _ =>
                 for_items rest
                   (extract_recursive value current_path all_commands)
             end
         end) items all_commands
  | _ => all_commands
  end.

(** [extract_all_commands(commands)], lines 145-161. *)
Definition extract_all_commands (commands : pyvalue) : list Command :=
  extract_recursive commands "" [].

(* ================================================================= *)
(** ** Exceptions and the state-and-error monad *)

(** The exceptions that occur.  [SystemExit] and [KeyboardInterrupt] derive
    from [BaseException] only; the other three are [Exception] or its
    subclasses, [Exception msg] standing for [Exception] itself and for any
    subclass that is not told apart ([msg] is [str(e)]). *)
Inductive exn : Type :=
| SystemExit (code : Z)
| KeyboardInterrupt
| KeyError (key : str)
| AttributeError (msg : str)
| Exception (msg : str).

(** [isinstance(e, Exception)]: what [except Exception] catches. *)
Definition is_Exception (e : exn) : bool :=
  match e with
  | SystemExit _ | KeyboardInterrupt => false
  | KeyError _ | AttributeError _ | Exception _ => true
  end.

Definition squote : str := String "039"%char EmptyString.
Definition dquote : str := String "034"%char EmptyString.

Definition hex_digit (n : nat) : ascii :=
  nth n (list_ascii_of_string "0123456789abcdef") "f"%char.

(** ['\\x{0:02x}'.format(n)] for [n < 256]. *)
Definition x_escape (n : nat) : str :=
  "\x" ++ String (hex_digit (n / 16)%nat) (String (hex_digit (n mod 16)%nat) "").

Definition contains (c : ascii) (s : str) : bool :=
  existsb (Ascii.eqb c) (list_ascii_of_string s).

(** One character of [repr(s)] for the quote character chosen: the quote
    and the backslash get a backslash, tab, newline and return their
    letter, and the other characters that are not printable (below the
    space, [0x7f], [0x80] to [0xa0], and the soft hyphen [0xad]) are
    written [\xhh]. *)
Definition repr_char (quote c : ascii) : str :=
  let n := nat_of_ascii c in
  if (Ascii.eqb c quote || Nat.eqb n 92%nat)%bool then String "\"%char (String c "")
  else if Nat.eqb n 9%nat then "\t"
  else if Nat.eqb n 10%nat then "\n"
  else if Nat.eqb n 13%nat then "\r"
  else if (Nat.ltb n 32%nat || Nat.eqb n 127%nat)%bool then x_escape n
  else if Nat.ltb n 127%nat then String c ""
  else if (Nat.leb n 160%nat || Nat.eqb n 173%nat)%bool then x_escape n
  else String c "".

(** [repr(s)] of a [str]: single quotes, unless the string holds a single
    quote and no double quote. *)
Definition py_repr (s : str) : str :=
  let quote :=
    if (contains "039"%char s && negb (contains "034"%char s))%bool
    then "034"%char else "039"%char in
  String quote
    (String.concat "" (map (repr_char quote) (list_ascii_of_string s))
     ++ String quote "").

(** [str(e)], as an f-string formats [{e}]; for a [KeyError] with its key
    as only argument it is [repr(key)]. *)
Definition exn_str (e : exn) : str :=
  match e with
  | SystemExit code => NilZero.string_of_int (Z.to_int code)
  | KeyboardInterrupt => ""
  | KeyError key => py_repr key
  | AttributeError msg => msg
  | Exception msg => msg
  end.

Inductive result (A : Type) : Type :=
| Ok (a : A)
| Raise (e : exn).
Arguments Ok {A} a.
Arguments Raise {A} e.

(** A computation over a store [S] that returns an [A] or raises. *)
Definition M (S A : Type) : Type := S -> result A * S.

Definition ret {S A} (a : A) : M S A := fun s => (Ok a, s).

Definition bind {S A B} (c : M S A) (k : A -> M S B) : M S B :=
  fun s =>
    match c s with
    | (Ok a, s') => k a s'
    | (Raise e, s') => (Raise e, s')
    end.

Definition raise {S A} (e : exn) : M S A := fun s => (Raise e, s).

Definition get {S} : M S S := fun s => (Ok s, s).

Definition modify {S} (f : S -> S) : M S unit := fun s => (Ok tt, f s).

(** [try: body  except <handler>: ...]: [handler e] is [Some h] when one of
    the [except] clauses matches [e], and [h] is then its body. *)
Definition try_except {S A} (body : M S A) (handler : exn -> option (M S A))
  : M S A :=
  fun s =>
    match body s with
    | (Ok a, s') => (Ok a, s')
    | (Raise e, s') =>
        match handler e with
        | Some h => h s'
        | None => (Raise e, s')
        end
    end.

(** [try: body  finally: cleanup]: the cleanup runs on every exit of the
    body; an exception of the cleanup replaces the body's outcome. *)
Definition try_finally {S A} (body : M S A) (cleanup : M S unit) : M S A :=
  fun s =>
    match body s with
    | (r, s') =>
        match cleanup s' with
        | (Ok _, s'') => (r, s'')
        | (Raise e, s'') => (Raise e, s'')
        end
    end.

Declare Scope py_scope.
Delimit Scope py_scope with py.
Notation "x <- c1 ;; c2" := (bind c1 (fun x => c2))
  (at level 61, c1 at next level, right associativity) : py_scope.
Notation "c1 ;; c2" := (bind c1 (fun _ => c2))
  (at level 61, right associativity) : py_scope.
Local Open Scope py_scope.

(** [if cond: body] with no [else]. *)
Definition when {S} (cond : bool) (body : M S unit) : M S unit :=
  if cond then body else ret tt.

(** [x in l] for a list of strings. *)
Definition py_in (x : str) (l : list str) : bool :=
  existsb (String.eqb x) l.

(* ================================================================= *)
(** ** json.dumps *)

(** CPython's [json.dumps] with its default arguments ([ensure_ascii=True],
    separators [", "] and [": "]), on the one shape both programs
    serialise: a dict from [str] to [str]. *)

(** ['\\u{0:04x}'.format(n)] for [n < 256]. *)
Definition u_escape (n : nat) : str :=
  "\u00" ++ String (hex_digit (n / 16)%nat) (String (hex_digit (n mod 16)%nat) "").

(** The replacement of one character by [encode_basestring_ascii]: the
    characters outside [' '..'~'], the quote and the backslash are
    escaped. *)
Definition escape_char (c : ascii) : str :=
  let n := nat_of_ascii c in
  if Nat.eqb n 34%nat then "\" ++ dquote
  else if Nat.eqb n 92%nat then "\\"
  else if Nat.eqb n 8%nat then "\b"
  else if Nat.eqb n 12%nat then "\f"
  else if Nat.eqb n 10%nat then "\n"
  else if Nat.eqb n 13%nat then "\r"
  else if Nat.eqb n 9%nat then "\t"
  else if (Nat.ltb n 32%nat || Nat.ltb 126%nat n)%bool then u_escape n
  else String c "".

Fixpoint escape_chars (s : str) : str :=
  match s with
  | EmptyString => ""
  | String c s' => escape_char c ++ escape_chars s'
  end.

Definition encode_basestring_ascii (s : str) : str :=
  dquote ++ escape_chars s ++ dquote.

Definition json_dumps (d : list (str * str)) : str :=
  "{" ++ String.concat ", "
           (map (fun kv => encode_basestring_ascii (fst kv) ++ ": "
                           ++ encode_basestring_ascii (snd kv)) d)
      ++ "}".

(* ================================================================= *)
(** ** controller.py *)

Module Controller.

Definition MQTT_CONTROLLER : str := "MQTT".
Definition UFOR11_CONTROLLER : str := "UFOR11".

Definition ENC_BASE64 : str := "Base64".
Definition ENC_HEX : str := "Hex".
Definition ENC_PRONTO : str := "Pronto".
Definition ENC_RAW : str := "Raw".

Definition MQTT_COMMANDS_ENCODING : list str := [ENC_RAW].
Definition LOOKIN_COMMANDS_ENCODING : list str := [ENC_PRONTO; ENC_RAW].
Definition ESPHOME_COMMANDS_ENCODING : list str := [ENC_RAW].
Definition UFOR11_COMMANDS_ENCODING : list str := [ENC_RAW].

(** One call of [hass.services.async_call(domain, service, service_data)]. *)
Record ServiceCall : Type := {
  domain : str;
  service : str;
  service_data : list (str * str)
}.

(** The host platform, as far as the controllers touch it: the service
    calls made so far, and what the host answers to the n-th call ([None]:
    the call returns; [Some e]: it raises [e]). *)
Record Hass : Type := {
  calls : list ServiceCall;
  call_outcome : nat -> option exn
}.

Definition async_call (domain service : str) (service_data : list (str * str))
  : M Hass unit :=
  fun hass =>
    let n := List.length (calls hass) in
    let hass' :=
      {| calls := (calls hass ++ [Build_ServiceCall domain service service_data])%list;
         call_outcome := call_outcome hass |} in
    match call_outcome hass n with
    | None => (Ok tt, hass')
    | Some e => (Raise e, hass')
    end.

(** The two concrete classes; [UFOR11Controller] derives from
    [MQTTController], which derives from [AbstractController]. *)
Inductive ControllerClass : Type :=
| MQTTController
| UFOR11Controller.

(** An instance: its class and the attributes [__init__] sets ([hass] is
    the store of the monad). *)
Record Instance : Type := {
  cls : ControllerClass;
  _controller : str;
  _encoding : str;
  _controller_data : str;
  _delay : Q
}.

(** [check_encoding], lines 62-66 and 81-85, selected by the class of
    [self]. *)
Definition check_encoding (c : ControllerClass) (encoding : str)
  : M Hass unit :=
  match c with
  | MQTTController =>
      when (negb (py_in encoding MQTT_COMMANDS_ENCODING))
        (raise (Exception "The encoding is not supported by the mqtt controller."))
  | UFOR11Controller =>
      when (negb (py_in encoding UFOR11_COMMANDS_ENCODING))
        (raise (Exception "The encoding is not supported by the UFO-R11 controller."))
  end.

(** Instantiating a class runs [AbstractController.__init__], lines 41-47,
    which neither subclass overrides. *)
Definition new (c : ControllerClass) (controller encoding controller_data : str)
    (delay : Q) : M Hass Instance :=
  check_encoding c encoding ;;
  ret {| cls := c;
         _controller := controller;
         _encoding := encoding;
         _controller_data := controller_data;
         _delay := delay |}.

(** [send], lines 68-76 and 87-95, selected by the class of [self]. *)
Definition send (self : Instance) (command : str) : M Hass unit :=
  match cls self with
  | MQTTController =>
      let service_data :=
        [("topic", _controller_data self); ("payload", command)] in
      async_call "mqtt" "publish" service_data
  | UFOR11Controller =>
      let service_data :=
        [("topic", _controller_data self);
         ("payload", json_dumps [("ir_code_to_send", command)])] in
      async_call "mqtt" "publish" service_data
  end.

(** [get_controller], lines 26-36.  The registry [controllers] is built and
    never consulted: the class instantiated is always [UFOR11Controller]. *)
Definition get_controller (controller encoding controller_data : str)
    (delay : Q) : M Hass Instance :=
  let controllers :=
    [(MQTT_CONTROLLER, MQTTController); (UFOR11_CONTROLLER, UFOR11Controller)] in
  try_except
    (new UFOR11Controller controller encoding controller_data delay)
    (fun e =>
       match e with
       | KeyError _ => Some (raise (Exception "The controller is not supported."))
       | _ => None
       end).

(** The two errors of the specification, as the code raises them. *)
Definition UnsupportedControllerError (e : exn) : Prop :=
  e = Exception "The controller is not supported.".

Definition UnsupportedEncodingError (e : exn) : Prop :=
  e = Exception "The encoding is not supported by the mqtt controller."
  \/ e = Exception "The encoding is not supported by the UFO-R11 controller.".

(** The encodings a class accepts, read off its [check_encoding]. *)
Definition supported_encodings (c : ControllerClass) : list str :=
  match c with
  | MQTTController => MQTT_COMMANDS_ENCODING
  | UFOR11Controller => UFOR11_COMMANDS_ENCODING
  end.

(** The class the registry [controllers] of [get_controller] lists for a
    controller kind. *)
Definition registered (controller : str) : option ControllerClass :=
  if String.eqb controller MQTT_CONTROLLER then Some MQTTController
  else if String.eqb controller UFOR11_CONTROLLER then Some UFOR11Controller
  else None.

(** A host with no call made yet, whose calls all return. *)
Definition quiet_hass : Hass := {| calls := []; call_outcome := fun _ => None |}.

End Controller.

(* ================================================================= *)
(** ** Python string helpers used by the runner *)

Definition str_of_nat (n : nat) : str := NilZero.string_of_uint (Nat.to_uint n).
Definition str_of_Z (z : Z) : str := NilZero.string_of_int (Z.to_int z).

Definition newline : str := String "010"%char EmptyString.

(** [c.isspace()] on the code points below 256. *)
Definition isspace (c : ascii) : bool :=
  let n := nat_of_ascii c in
  ((Nat.leb 9 n && Nat.leb n 13) || (Nat.leb 28 n && Nat.leb n 32)
   || Nat.eqb n 133 || Nat.eqb n 160)%nat%bool.

Fixpoint lstrip (s : str) : str :=
  match s with
  | EmptyString => EmptyString
  | String c s' => if isspace c then lstrip s' else s
  end.

Fixpoint rstrip (s : str) : str :=
  match s with
  | EmptyString => EmptyString
  | String c s' =>
      match rstrip s' with
      | EmptyString => if isspace c then EmptyString else String c EmptyString
      | r => String c r
      end
  end.

(** [s.strip()]. *)
Definition strip (s : str) : str := rstrip (lstrip s).

(** [c.lower()] on the code points below 256: the letters A-Z and the
    Latin-1 capitals 0xC0-0xDE other than the multiplication sign. *)
Definition lower_char (c : ascii) : ascii :=
  let n := nat_of_ascii c in
  if ((Nat.leb 65 n && Nat.leb n 90)
      || (Nat.leb 192 n && Nat.leb n 222 && negb (Nat.eqb n 215)))%nat%bool
  then ascii_of_nat (n + 32) else c.

(** [s.lower()]. *)
Fixpoint lower (s : str) : str :=
  match s with
  | EmptyString => EmptyString
  | String c s' => String (lower_char c) (lower s')
  end.

(** [type(v).__name__]. *)
Definition type_name (v : pyvalue) : str :=
  match v with
  | VNone => "NoneType"
  | VBool _ => "bool"
  | VInt _ => "int"
  | VFloat _ => "float"
  | VStr _ => "str"
  | VList _ => "list"
  | VDict _ => "dict"
  end.

(** Truthiness of an optional string ([None] or [str]). *)
Definition opt_truthy (o : option str) : bool :=
  match o with
  | None => false
  | Some s => str_truthy s
  end.

(* ================================================================= *)
(** ** send_toshiba_commands.py: the runner *)

Module Runner.

Inductive Level : Type := DEBUG | INFO | WARNING | ERROR.

(** What the process does to the outside, in order. *)
Inductive Event : Type :=
| Log (level : Level) (msg : str)          (* a record the logger emits *)
| Print (text : str)                        (* [print(text)] *)
| ClientNew                                 (* [mqtt.Client()] *)
| UsernamePwSet (username password : str)   (* [client.username_pw_set] *)
| Connect (host : str) (port keepalive : Z) (* [client.connect] *)
| LoopStart                                 (* [client.loop_start()] *)
| Sleep (seconds : Q)                       (* [time.sleep] *)
| Publish (topic payload : str)             (* [client.publish] *)
| Input (prompt : str)                      (* [input(prompt)] *)
| LoopStop                                  (* [client.loop_stop()] *)
| Disconnect.                               (* [client.disconnect()] *)

(** The callbacks the network thread of the client may run. *)
Inductive Callback : Type :=
| OnConnect (rc : Z)
| OnDisconnect (rc : Z)
| OnPublish (mid : Z).

Inductive LoadOutcome : Type :=
| FileNotFound
| JSONDecodeError (msg : str)
| LoadFailure (msg : str)
| Loaded (data : pyvalue).

Inductive PublishOutcome : Type :=
| Published (rc : Z)
| PublishRaises (e : exn).

Inductive InputOutcome : Type :=
| Line (text : str)
| InputRaises (e : exn).

(** The surroundings of one run: what opening and parsing the commands
    file gives, whether [client.connect] raises, which callbacks the
    network thread has run by the n-th time the main thread reads
    [self.connected] (since the previous read), the outcome of the n-th
    [client.publish] and of the n-th [input].  An outcome may be any
    exception, [KeyboardInterrupt] included: an interruption reaches the
    main thread while it is inside one of these calls.  The other calls
    into the client library, [time.sleep], [print] and the logger are
    taken to return. *)
Record World : Type := {
  file : LoadOutcome;
  client_connect : option exn;
  callbacks : nat -> list Callback;
  publish : nat -> PublishOutcome;
  input : nat -> InputOutcome
}.

Inductive Client : Type := PahoClient.

(** The store: the trace of events, how many reads of [self.connected],
    publishes and inputs there were, and the two attributes of the tester
    object that change after [__init__]. *)
Record Proc : Type := {
  trace : list Event;
  reads : nat;
  publishes : nat;
  inputs : nat;
  client : option Client;
  connected : bool
}.

Definition initial : Proc :=
  {| trace := []; reads := 0; publishes := 0; inputs := 0;
     client := None; connected := false |}.

(** The attributes of the tester object that [__init__] sets for good. *)
Record Tester : Type := {
  mqtt_host : str;
  mqtt_port : Z;
  mqtt_topic : str;
  mqtt_username : option str;
  mqtt_password : option str
}.

(** What lines 172-191 of [main] read from the environment. *)
Record Config : Type := {
  cfg_host : str;
  cfg_port : Z;
  cfg_topic : str;
  cfg_username : option str;
  cfg_password : option str;
  commands_file : str
}.

Definition emit (e : Event) : M Proc unit :=
  modify (fun s =>
    {| trace := (trace s ++ [e])%list; reads := reads s;
       publishes := publishes s; inputs := inputs s;
       client := client s; connected := connected s |}).

Definition set_client (c : option Client) : M Proc unit :=
  modify (fun s =>
    {| trace := trace s; reads := reads s; publishes := publishes s;
       inputs := inputs s; client := c; connected := connected s |}).

Definition set_connected (b : bool) : M Proc unit :=
  modify (fun s =>
    {| trace := trace s; reads := reads s; publishes := publishes s;
       inputs := inputs s; client := client s; connected := b |}).

(** [logging.basicConfig(level=logging.INFO)]: debug records are dropped. *)
Definition log (level : Level) (msg : str) : M Proc unit :=
  match level with
  | DEBUG => ret tt
  | _ => emit (Log level msg)
  end.

Definition sys_exit {A} (code : Z) : M Proc A := raise (SystemExit code).

Definition MQTT_ERR_SUCCESS : Z := 0.

(** [__init__], lines 29-38. *)
Definition init (mqtt_host : str) (mqtt_port : Z) (mqtt_topic : str)
    (mqtt_username mqtt_password : option str) : M Proc Tester :=
  set_client None ;;
  set_connected false ;;
  ret {| mqtt_host := mqtt_host; mqtt_port := mqtt_port;
         mqtt_topic := mqtt_topic; mqtt_username := mqtt_username;
         mqtt_password := mqtt_password |}.

(** [_on_connect], lines 74-80. *)
Definition _on_connect (rc : Z) : M Proc unit :=
  if Z.eqb rc 0 then
    set_connected true ;;
    log INFO "Successfully connected to MQTT broker"
  else
    log ERROR ("Failed to connect to MQTT broker. Return code: " ++ str_of_Z rc).

(** [_on_disconnect], lines 82-88. *)
Definition _on_disconnect (rc : Z) : M Proc unit :=
  set_connected false ;;
  if negb (Z.eqb rc 0) then
    log WARNING "Unexpected disconnection from MQTT broker"
  else
    log INFO "Disconnected from MQTT broker".

(** [_on_publish], lines 90-92. *)
Definition _on_publish (mid : Z) : M Proc unit :=
  log DEBUG ("Message " ++ str_of_Z mid ++ " published successfully").

Definition run_callback (cb : Callback) : M Proc unit :=
  match cb with
  | OnConnect rc => _on_connect rc
  | OnDisconnect rc => _on_disconnect rc
  | OnPublish mid => _on_publish mid
  end.

Fixpoint network_thread (cbs : list Callback) : M Proc unit :=
  match cbs with
  | [] => ret tt
  | cb :: rest => run_callback cb ;; network_thread rest
  end.

(** The main thread reads [self.connected]: the callbacks the network
    thread ran since the previous read have taken effect. *)
Definition read_connected (w : World) : M Proc bool :=
  s <- get ;;
  network_thread (callbacks w (reads s)) ;;
  modify (fun s =>
    {| trace := trace s; reads := S (reads s); publishes := publishes s;
       inputs := inputs s; client := client s; connected := connected s |}) ;;
  s' <- get ;;
  ret (connected s').

(** [self.client.connect(host, port, 60)]. *)
Definition do_connect (w : World) (host : str) (port keepalive : Z)
  : M Proc unit :=
  emit (Connect host port keepalive) ;;
  match client_connect w with
  | None => ret tt
  | Some e => raise e
  end.

(** [self.client.publish(topic, payload)], returning [result.rc]. *)
Definition do_publish (w : World) (topic payload : str) : M Proc Z :=
  s <- get ;;
  match client s with
  | None => raise (AttributeError "'NoneType' object has no attribute 'publish'")
  | Some _ =>
      emit (Publish topic payload) ;;
      modify (fun s =>
        {| trace := trace s; reads := reads s; publishes := S (publishes s);
           inputs := inputs s; client := client s; connected := connected s |}) ;;
      match publish w (publishes s) with
      | Published rc => ret rc
      | PublishRaises e => raise e
      end
  end.

(** [input(prompt)]. *)
Definition do_input (w : World) (prompt : str) : M Proc str :=
  s <- get ;;
  emit (Input prompt) ;;
  modify (fun s =>
    {| trace := trace s; reads := reads s; publishes := publishes s;
       inputs := S (inputs s); client := client s; connected := connected s |}) ;;
  match input w (inputs s) with
  | Line text => ret text
  | InputRaises e => raise e
  end.

(** The number of half seconds a positive timeout still allows. *)
Definition ticks (timeout : Q) : nat := Z.to_nat (Qceiling (timeout * 2)).

(** The waiting loop of [connect], lines 59-62: [timeout] starts at 10 and
    loses 0.5 per turn, both exact in binary floating point. *)
Equations wait_connected (w : World) (timeout : Q) : M Proc unit
  by wf (ticks timeout) lt :=
  wait_connected w timeout :=
    c <- read_connected w ;;
    if negb c then
      match Qlt_le_dec 0 timeout with
      | left Hpos =>
          emit (Sleep (1 # 2)) ;;
          wait_connected w (timeout - (1 # 2))
      | right _ => ret tt
      end
    else ret tt.
Next Obligation.
  (* each turn brings the timeout one tick closer to zero *)
  unfold ticks.
  assert (Heq : (timeout - (1 # 2)) * 2 == timeout * 2 - 1) by ring.
  rewrite (Qceiling_comp _ _ Heq).
  set (x := timeout * 2).
  assert (Hx : 0 < x) by (unfold x; lra).
  pose proof (Qle_ceiling x) as H1.
  pose proof (Qceiling_lt (x - 1)) as H2.
  assert (H4 : inject_Z (Qceiling (x - 1) - 1) == inject_Z (Qceiling (x - 1)) - 1).
  { unfold Z.sub. rewrite inject_Z_plus. reflexivity. }
  rewrite H4 in H2.
  assert (H0 : (0 < Qceiling x)%Z).
  { rewrite Zlt_Qlt. change (inject_Z 0) with 0.
    apply Qlt_le_trans with x; assumption. }
  assert (Hlt : (Qceiling (x - 1) < Qceiling x)%Z).
  { rewrite Zlt_Qlt.
    set (a := inject_Z (Qceiling (x - 1))) in *.
    set (b := inject_Z (Qceiling x)) in *.
    clearbody a b. lra. }
  lia.
Qed.

(** [connect], lines 40-72. *)
Definition connect (w : World) (self : Tester) : M Proc bool :=
  try_except
    (emit ClientNew ;;
     set_client (Some PahoClient) ;;
     when (opt_truthy (mqtt_username self) && opt_truthy (mqtt_password self))
       (emit (UsernamePwSet (match mqtt_username self with Some u => u | None => "" end)
                            (match mqtt_password self with Some p => p | None => "" end))) ;;
     log INFO ("Connecting to MQTT broker at " ++ mqtt_host self ++ ":"
               ++ str_of_Z (mqtt_port self)) ;;
     do_connect w (mqtt_host self) (mqtt_port self) 60 ;;
     emit LoopStart ;;
     wait_connected w 10 ;;
     c <- read_connected w ;;
     if negb c then
       log ERROR "Failed to connect to MQTT broker within timeout" ;;
       ret false
     else ret true)
    (fun e =>
       if is_Exception e then
         Some (log ERROR ("MQTT connection error: " ++ exn_str e) ;; ret false)
       else None).

(** [send_command], lines 94-118. *)
Definition send_command (w : World) (self : Tester)
    (command_name command_data : str) : M Proc bool :=
  c <- read_connected w ;;
  if negb c then
    log ERROR "Not connected to MQTT broker" ;;
    ret false
  else
    try_except
      (let payload := [("ir_code_to_send", command_data)] in
       rc <- do_publish w (mqtt_topic self) (json_dumps payload) ;;
       if Z.eqb rc MQTT_ERR_SUCCESS then
         log INFO ("Successfully sent command '" ++ command_name
                   ++ "' to topic '" ++ mqtt_topic self ++ "'") ;;
         ret true
       else
         log ERROR ("Failed to publish command '" ++ command_name
                    ++ "'. Return code: " ++ str_of_Z rc) ;;
         ret false)
      (fun e =>
         if is_Exception e then
           Some (log ERROR ("Error sending command '" ++ command_name ++ "': "
                            ++ exn_str e) ;;
                 ret false)
         else None).

(** [disconnect], lines 120-124.  [client.loop_stop()] and
    [client.disconnect()] are each one event: they are taken to return,
    and what the library does inside them (a callback it may run on the
    calling thread) is not followed. *)
Definition disconnect (self : Tester) : M Proc unit :=
  s <- get ;;
  when (match client s with Some _ => true | None => false end)
    (emit LoopStop ;;
     emit Disconnect).

(** [load_toshiba_commands], lines 127-142. *)
Definition load_toshiba_commands (w : World) (json_file_path : str)
  : M Proc pyvalue :=
  match file w with
  | Loaded data =>
      log INFO ("Successfully loaded Toshiba commands from " ++ json_file_path) ;;
      ret data
  | FileNotFound =>
      log ERROR ("Commands file not found: " ++ json_file_path) ;;
      sys_exit 1
  | JSONDecodeError msg =>
      log ERROR ("Invalid JSON in commands file: " ++ msg) ;;
      sys_exit 1
  | LoadFailure msg =>
      log ERROR ("Error loading commands file: " ++ msg) ;;
      sys_exit 1
  end.

(** [get_user_confirmation], lines 164-167. *)
Definition get_user_confirmation (w : World) : M Proc bool :=
  response <- do_input w "Press Enter to continue or 'q' to quit: " ;;
  ret (negb (String.eqb (lower (strip response)) "q")).

(** [device_data.get('commands', {})], line 200: only a dict has [get]. *)
Definition get_commands (device_data : pyvalue) : M Proc pyvalue :=
  match device_data with
  | VDict items =>
      ret (match dict_get items "commands" with
           | Some v => v
           | None => VDict []
           end)
  | other =>
      raise (AttributeError ("'" ++ type_name other
                             ++ "' object has no attribute 'get'"))
  end.

(** The [for] loop of [main], lines 226-240, from the [i]-th command on;
    [total] is [len(all_commands)].  Not recurring is the [break]. *)
Fixpoint for_commands (w : World) (mqtt_client : Tester) (total i : nat)
    (rest : list Command) : M Proc unit :=
  match rest with
  | [] => ret tt
  | (command_name, command_data) :: rest' =>
      emit (Print (newline ++ "--- Command " ++ str_of_nat i ++ "/"
                   ++ str_of_nat total ++ ": " ++ command_name ++ " ---")) ;;
      emit (Print ("Command data: " ++ substring 0 50 command_data
                   ++ (if Nat.ltb 50 (String.length command_data)
                       then "..." else ""))) ;;
      success <- send_command w mqtt_client command_name command_data ;;
      when (negb success)
        (log WARNING ("Failed to send command '" ++ command_name ++ "'")) ;;
      if Nat.ltb i total then
        continue <- get_user_confirmation w ;;
        if negb continue then
          log INFO "User requested to stop. Exiting..."
        else for_commands w mqtt_client total (S i) rest'
      else for_commands w mqtt_client total (S i) rest'
  end.

(** [main], lines 193-217: banner, loading, the guard on an empty table,
    flattening, and the construction of the tester. *)
Definition main_setup (w : World) (cfg : Config)
  : M Proc (Tester * list Command) :=
  log INFO "=== Toshiba MQTT Command Tester ===" ;;
  log INFO ("MQTT Host: " ++ cfg_host cfg ++ ":" ++ str_of_Z (cfg_port cfg)) ;;
  log INFO ("MQTT Topic: " ++ cfg_topic cfg) ;;
  log INFO ("Commands file: " ++ commands_file cfg) ;;
  device_data <- load_toshiba_commands w (commands_file cfg) ;;
  commands <- get_commands device_data ;;
  when (negb (truthy commands))
    (log ERROR "No commands found in the device file" ;;
     sys_exit 1) ;;
  let all_commands := extract_all_commands commands in
  log INFO ("Found " ++ str_of_nat (List.length all_commands)
            ++ " total commands") ;;
  mqtt_client <- init (cfg_host cfg) (cfg_port cfg) (cfg_topic cfg)
                      (cfg_username cfg) (cfg_password cfg) ;;
  ret (mqtt_client, all_commands).

(** [main], lines 224-251: the replay under [try]/[except]/[finally]. *)
Definition main_replay (w : World) (mqtt_client : Tester)
    (all_commands : list Command) : M Proc unit :=
  try_finally
    (try_except
       (for_commands w mqtt_client (List.length all_commands) 1 all_commands ;;
        log INFO "Command testing completed")
       (fun e =>
          match e with
          | KeyboardInterrupt => Some (log INFO "Interrupted by user. Exiting...")
          | _ =>
              if is_Exception e then
                Some (log ERROR ("Unexpected error: " ++ exn_str e))
              else None
          end))
    (disconnect mqtt_client ;;
     log INFO "Disconnected from MQTT broker").

(** [main], from line 193 on. *)
Definition main (w : World) (cfg : Config) : M Proc unit :=
  setup <- main_setup w cfg ;;
  let mqtt_client := fst setup in
  let all_commands := snd setup in
  ok <- connect w mqtt_client ;;
  when (negb ok)
    (log ERROR "Failed to connect to MQTT broker" ;;
     sys_exit 1) ;;
  main_replay w mqtt_client all_commands.

(** The exit status of the process for an outcome of [main()]: 0 when it
    returns, the code of [sys.exit], and a non-zero status when an
    exception is left unhandled. *)
Definition exit_status (r : result unit) : Z :=
  match r with
  | Ok _ => 0
  | Raise (SystemExit code) => code
  | Raise KeyboardInterrupt => 130
  | Raise _ => 1
  end.

End Runner.

(* ================================================================= *)
(** ** Notions the specification uses *)

(** The string leaves of a nested mapping in pre-order, depth first,
    siblings in the mapping's own order, each with the sequence of keys
    from the root down to it.  Only mappings are descended into. *)
Definition entry_leaves (leaves : pyvalue -> list (list str * str))
    (key : str) (value : pyvalue) : list (list str * str) :=
  match value with
  | VStr s => [([key], s)]
  | _ => map (fun l => (key :: fst l, snd l)) (leaves value)
  end.

Fixpoint leaves (obj : pyvalue) : list (list str * str) :=
  match obj with
  | VDict items =>
      (fix of_items (items : list (str * pyvalue)) : list (list str * str) :=
         match items with
         | [] => []
         | (key, value) :: rest =>
             (entry_leaves leaves key value ++ of_items rest)%list
         end) items
  | _ => []
  end.

(** The dot-joined sequence of keys. *)
Definition dot_join (keys : list str) : str := String.concat "." keys.

(** The keys left once the leading empty ones are dropped. *)
Fixpoint drop_empty (keys : list str) : list str :=
  match keys with
  | [] => []
  | k :: rest => if str_truthy k then keys else drop_empty rest
  end.

(** The number of strings anywhere in a value. *)
Fixpoint count_strings (v : pyvalue) : nat :=
  match v with
  | VStr _ => 1
  | VList l =>
      (fix sum (l : list pyvalue) : nat :=
         match l with
         | [] => 0
         | x :: l' => count_strings x + sum l'
         end)%nat l
  | VDict items =>
      (fix sum (items : list (str * pyvalue)) : nat :=
         match items with
         | [] => 0
         | (_, x) :: rest => count_strings x + sum rest
         end)%nat items
  | _ => 0%nat
  end.

(** The tree invariant of a command table: strings and mappings only. *)
Fixpoint is_table (v : pyvalue) : bool :=
  match v with
  | VStr _ => true
  | VDict items =>
      (fix all (items : list (str * pyvalue)) : bool :=
         match items with
         | [] => true
         | (_, x) :: rest => is_table x && all rest
         end) items
  | _ => false
  end.

(** A command table: a mapping that satisfies the tree invariant. *)
Definition command_table (v : pyvalue) : bool := is_dict v && is_table v.

(** No key of the value is the empty string. *)
Fixpoint keys_nonempty (v : pyvalue) : bool :=
  match v with
  | VDict items =>
      (fix all (items : list (str * pyvalue)) : bool :=
         match items with
         | [] => true
         | (k, x) :: rest => str_truthy k && keys_nonempty x && all rest
         end) items
  | _ => true
  end.

(** Flattening as the specification words it: one command per leaf, its
    path the dot-joined keys. *)
Definition flatten_spec (table : pyvalue) : list Command :=
  map (fun l => (dot_join (fst l), snd l)) (leaves table).

(** Classification of the events of a run. *)
Definition is_publish (e : Runner.Event) : bool :=
  match e with Runner.Publish _ _ => true | _ => false end.

Definition is_input (e : Runner.Event) : bool :=
  match e with Runner.Input _ => true | _ => false end.

Definition is_sleep (e : Runner.Event) : bool :=
  match e with Runner.Sleep _ => true | _ => false end.

Definition is_loop_stop (e : Runner.Event) : bool :=
  match e with Runner.LoopStop => true | _ => false end.

Definition is_disconnect (e : Runner.Event) : bool :=
  match e with Runner.Disconnect => true | _ => false end.

Definition is_log (e : Runner.Event) : bool :=
  match e with Runner.Log _ _ => true | _ => false end.

(** An event that touches the transport client. *)
Definition is_transport (e : Runner.Event) : bool :=
  match e with
  | Runner.Log _ _ | Runner.Print _ | Runner.Input _ | Runner.Sleep _ => false
  | _ => true
  end.

Definition count (p : Runner.Event -> bool) (tr : list Runner.Event) : nat :=
  List.length (filter p tr).

(** The path [extract_recursive] has built after descending from [path]
    along [keys]. *)
Definition path_step (path key : str) : str :=
  if str_truthy path then path ++ "." ++ key else key.

Definition path_from (path : str) (keys : list str) : str :=
  fold_left path_step keys path.

(** The command [extract_recursive] emits for a leaf below [path]. *)
Definition leaf_command (path : str) (l : list str * str) : Command :=
  (path_from path (fst l), snd l).

(** A computation respects a relation between stores when every run of it
    relates the store before to the store after. *)
Definition respects {S A : Type} (R : S -> S -> Prop) (c : M S A) : Prop :=
  forall s, R s (snd (c s)).

(** What a part of the runner may do: the kind of events it adds to the
    trace, and which components of the store it leaves as they are. *)
Record Frame : Type := {
  events : Runner.Event -> bool;
  keep_client : bool;
  keep_inputs : bool;
  keep_publishes : bool;
  keep_reads : bool
}.

Definition within (F : Frame) (s s' : Runner.Proc) : Prop :=
  (exists evs,
     Runner.trace s' = (Runner.trace s ++ evs)%list
     /\ forallb (events F) evs = true)
  /\ (keep_client F = true -> Runner.client s' = Runner.client s)
  /\ (keep_inputs F = true -> Runner.inputs s' = Runner.inputs s)
  /\ (keep_publishes F = true -> Runner.publishes s' = Runner.publishes s)
  /\ (keep_reads F = true -> Runner.reads s' = Runner.reads s).

(** [F] allows no more than [G]. *)
Definition narrower (F G : Frame) : Prop :=
  (forall e, events F e = true -> events G e = true)
  /\ (keep_client G = true -> keep_client F = true)
  /\ (keep_inputs G = true -> keep_inputs F = true)
  /\ (keep_publishes G = true -> keep_publishes F = true)
  /\ (keep_reads G = true -> keep_reads F = true).

(** The frames of the parts of the runner. *)
Definition is_log_or_sleep (e : Runner.Event) : bool := is_log e || is_sleep e.

Definition is_log_or_publish (e : Runner.Event) : bool :=
  is_log e || is_publish e.

Definition is_teardown (e : Runner.Event) : bool :=
  is_loop_stop e || is_disconnect e.

Definition logging : Frame :=
  {| events := is_log; keep_client := true; keep_inputs := true;
     keep_publishes := true; keep_reads := true |}.

Definition reading : Frame :=
  {| events := is_log; keep_client := true; keep_inputs := true;
     keep_publishes := true; keep_reads := false |}.

Definition waiting : Frame :=
  {| events := is_log_or_sleep; keep_client := true; keep_inputs := true;
     keep_publishes := true; keep_reads := false |}.

Definition connecting : Frame :=
  {| events := fun e => negb (is_publish e || is_input e || is_teardown e);
     keep_client := false; keep_inputs := true; keep_publishes := true;
     keep_reads := false |}.

Definition sending : Frame :=
  {| events := is_log_or_publish; keep_client := true; keep_inputs := true;
     keep_publishes := false; keep_reads := false |}.

Definition prompting : Frame :=
  {| events := is_input; keep_client := true; keep_inputs := false;
     keep_publishes := true; keep_reads := true |}.

Definition replaying : Frame :=
  {| events := fun e => negb (is_teardown e); keep_client := true;
     keep_inputs := false; keep_publishes := false; keep_reads := false |}.

Definition setting_up : Frame :=
  {| events := is_log; keep_client := false; keep_inputs := true;
     keep_publishes := true; keep_reads := true |}.

Definition with_client : Frame :=
  {| events := fun _ => true; keep_client := true; keep_inputs := false;
     keep_publishes := false; keep_reads := false |}.

(** The value of [self.connected] once the network thread has run the
    callbacks [cbs], [b] being the value before. *)
Definition flag_after (cbs : list Runner.Callback) (b : bool) : bool :=
  fold_left
    (fun b cb =>
       match cb with
       | Runner.OnConnect rc => if Z.eqb rc 0 then true else b
       | Runner.OnDisconnect _ => false
       | Runner.OnPublish _ => b
       end) cbs b.

(** The connected-callback fires with success: [_on_connect] with return
    code 0. *)
Definition connack (cb : Runner.Callback) : bool :=
  match cb with
  | Runner.OnConnect rc => Z.eqb rc 0
  | _ => false
  end.

(** The two lines printed before a command is sent, lines 227-228. *)
Definition header (i total : nat) (command_name : str) : str :=
  newline ++ "--- Command " ++ str_of_nat i ++ "/" ++ str_of_nat total
  ++ ": " ++ command_name ++ " ---".

Definition preview (command_data : str) : str :=
  "Command data: " ++ substring 0 50 command_data
  ++ (if Nat.ltb 50 (String.length command_data) then "..." else "").

(** The prompt of [get_user_confirmation]. *)
Definition prompt : str := "Press Enter to continue or 'q' to quit: ".

(** The first event of sending a command: the publish of its envelope when
    [self.connected] is set, else the record that it is not. *)
Definition attempt (connected : bool) (topic command_data : str)
  : Runner.Event :=
  if connected
  then Runner.Publish topic (json_dumps [("ir_code_to_send", command_data)])
  else Runner.Log Runner.ERROR "Not connected to MQTT broker".

(** The payload the runner publishes for a command. *)
Definition envelope (command_data : str) : str :=
  json_dumps [("ir_code_to_send", command_data)].

(** A publish that fails: a return code other than success, or an
    exception that derives from [Exception]. *)
Definition publish_fails (o : Runner.PublishOutcome) : Prop :=
  match o with
  | Runner.Published rc => rc <> Runner.MQTT_ERR_SUCCESS
  | Runner.PublishRaises e => is_Exception e = true
  end.

(** What [send_command] returns for an outcome of [client.publish]. *)
Definition send_result (o : Runner.PublishOutcome) : result bool :=
  match o with
  | Runner.Published rc => Ok (Z.eqb rc Runner.MQTT_ERR_SUCCESS)
  | Runner.PublishRaises e => if is_Exception e then Ok false else Raise e
  end.

(** Further classes of events and callbacks. *)
Definition is_loop_start (e : Runner.Event) : bool :=
  match e with Runner.LoopStart => true | _ => false end.

Definition is_credentials (e : Runner.Event) : bool :=
  match e with Runner.UsernamePwSet _ _ => true | _ => false end.

(** The disconnected-callback. *)
Definition drops (cb : Runner.Callback) : bool :=
  match cb with Runner.OnDisconnect _ => true | _ => false end.

(** A callback that leaves [self.connected] as it is. *)
Definition leaves_flag (cb : Runner.Callback) : bool :=
  negb (connack cb || drops cb).

Definition without_credentials : Frame :=
  {| events := fun e => negb (is_credentials e); keep_client := false;
     keep_inputs := false; keep_publishes := false; keep_reads := false |}.

Definition without_loop_start : Frame :=
  {| events := fun e => negb (is_loop_start e); keep_client := false;
     keep_inputs := false; keep_publishes := false; keep_reads := false |}.

(** The line is the quit token once stripped: [q] or [Q]. *)
Definition quits (text : str) : bool :=
  String.eqb (strip text) "q" || String.eqb (strip text) "Q".

(** The world raises [e] into the replay: a publish raises it and
    [send_command] does not catch it, or an input raises it. *)
Definition raised_by (w : Runner.World) (e : exn) : Prop :=
  (exists n, Runner.publish w n = Runner.PublishRaises e
             /\ is_Exception e = false)
  \/ (exists n, Runner.input w n = Runner.InputRaises e).

(** The waiting loop of [connect] as a function of the callbacks: from
    the read numbered [r], with the flag at [b] and [n] half seconds left,
    the number of sleeps and the flag at the end. *)
Fixpoint wait_outcome (w : Runner.World) (r : nat) (b : bool) (n : nat)
  : nat * bool :=
  if flag_after (Runner.callbacks w r) b then (0%nat, true)
  else match n with
       | O => (0%nat, false)
       | S n' =>
           let (sleeps, flag) := wait_outcome w (S r) false n' in
           (S sleeps, flag)
       end.

(** The events of [connect] up to the call of [client.connect]. *)
Definition credentials (self : Runner.Tester) : list Runner.Event :=
  if opt_truthy (Runner.mqtt_username self)
     && opt_truthy (Runner.mqtt_password self)
  then [Runner.UsernamePwSet
          (match Runner.mqtt_username self with Some u => u | None => "" end)
          (match Runner.mqtt_password self with Some p => p | None => "" end)]
  else [].

Definition connect_prefix (self : Runner.Tester) : list Runner.Event :=
  (Runner.ClientNew :: credentials self
   ++ [Runner.Log Runner.INFO
         ("Connecting to MQTT broker at " ++ Runner.mqtt_host self ++ ":"
          ++ str_of_Z (Runner.mqtt_port self))%string;
       Runner.Connect (Runner.mqtt_host self) (Runner.mqtt_port self) 60])%list.

(** What the [except] clauses of [main] catch. *)
Definition caught_by_main (e : exn) : bool :=
  match e with
  | KeyboardInterrupt => true
  | _ => is_Exception e
  end.

(** Reading back a JSON string body: the characters up to the closing
    quote, with the escapes of [encode_basestring_ascii] undone, and what
    follows the quote.  It is the inverse the injectivity of the envelope is
    proved with. *)
Definition hex_value (c : ascii) : option nat :=
  let n := nat_of_ascii c in
  if (Nat.leb 48 n && Nat.leb n 57)%nat%bool then Some (n - 48)%nat
  else if (Nat.leb 97 n && Nat.leb n 102)%nat%bool then Some (n - 87)%nat
  else None.

Definition simple_escape (c : ascii) : option ascii :=
  let n := nat_of_ascii c in
  if Nat.eqb n 34%nat then Some (ascii_of_nat 34)
  else if Nat.eqb n 92%nat then Some (ascii_of_nat 92)
  else if Nat.eqb n 98%nat then Some (ascii_of_nat 8)
  else if Nat.eqb n 102%nat then Some (ascii_of_nat 12)
  else if Nat.eqb n 110%nat then Some (ascii_of_nat 10)
  else if Nat.eqb n 114%nat then Some (ascii_of_nat 13)
  else if Nat.eqb n 116%nat then Some (ascii_of_nat 9)
  else None.

Definition push (c : option ascii) (r : option (str * str))
  : option (str * str) :=
  match c, r with
  | Some c, Some (body, tail) => Some (String c body, tail)
  | _, _ => None
  end.

Fixpoint read_string_body (s : str) : option (str * str) :=
  match s with
  | EmptyString => None
  | String c rest =>
      if Nat.eqb (nat_of_ascii c) 34%nat then Some (EmptyString, rest)
      else if Nat.eqb (nat_of_ascii c) 92%nat then
        match rest with
        | String d rest' =>
            if Nat.eqb (nat_of_ascii d) 117%nat then
              match rest' with
              | String h1 (String h2 (String h3 (String h4 rest''))) =>
                  push
                    (match hex_value h1, hex_value h2,
                           hex_value h3, hex_value h4 with
                     | Some a, Some b, Some c, Some d =>
                         Some (ascii_of_nat (((a * 16 + b) * 16 + c) * 16 + d))
                     | _, _, _, _ => None
                     end)
                    (read_string_body rest'')
              | _ => None
              end
            else push (simple_escape d) (read_string_body rest')
        | EmptyString => None
        end
      else push (Some c) (read_string_body rest)
  end.




(* ================================================================= *)
(** * Properties *)

(* ================================================================= *)
(** ** Flattening *)

Section Flatten.


Lemma extract_recursive_dict_cons key value rest path acc :
  extract_recursive (VDict ((key, value) :: rest)) path acc =
  extract_recursive (VDict rest) path
    (match value with
     | VStr s => (acc ++ [(path_step path key, s)])%list
     | _ => extract_recursive value (path_step path key) acc
     end).
Proof. destruct value; reflexivity. Qed.

Lemma leaves_dict_cons key value rest :
  leaves (VDict ((key, value) :: rest)) =
  (entry_leaves leaves key value ++ leaves (VDict rest))%list.
Proof. reflexivity. Qed.

(** What [extract_recursive] appends: one command per leaf below [obj], in
    the order of [leaves], the path continued from [path]. *)
Lemma extract_recursive_leaves obj :
  forall path acc,
    extract_recursive obj path acc =
    (acc ++ map (leaf_command path) (leaves obj))%list.
Proof.
  induction obj as [ | b | z | q | s | l _ | items IH ] using pyvalue_ind;
    intros path acc; try (simpl; now rewrite app_nil_r).
  revert acc.
  induction IH as [ | [key value] rest Hvalue _ IHrest ]; intros acc.
  - simpl. now rewrite app_nil_r.
  - rewrite extract_recursive_dict_cons, leaves_dict_cons, map_app, IHrest.
    rewrite app_assoc. f_equal.
    simpl in Hvalue.
    destruct value; try (rewrite Hvalue; simpl; now rewrite ?app_nil_r).
    + reflexivity.
    + rewrite Hvalue. f_equal. unfold entry_leaves.
      rewrite map_map. apply map_ext. intros [ks v]. reflexivity.
Qed.

Lemma str_truthy_app a b : str_truthy a = true -> str_truthy (a ++ b) = true.
Proof. destruct a; [discriminate | reflexivity]. Qed.

Lemma string_app_assoc (a b c : str) : (a ++ b) ++ c = a ++ b ++ c.
Proof. induction a as [ | x a IH]; simpl; [reflexivity | now rewrite IH]. Qed.

Lemma dot_join_cons_step a k ks :
  dot_join ((a ++ "." ++ k) :: ks) = a ++ "." ++ dot_join (k :: ks).
Proof.
  unfold dot_join. destruct ks as [ | x ks]; simpl.
  - reflexivity.
  - now rewrite !string_app_assoc.
Qed.

(** Below a non-empty path the keys are appended with dots. *)
Lemma path_from_truthy ks :
  forall p, str_truthy p = true -> path_from p ks = dot_join (p :: ks).
Proof.
  induction ks as [ | k ks IH]; intros p Hp.
  - reflexivity.
  - unfold path_from in *. simpl. unfold path_step at 2. rewrite Hp.
    rewrite IH by now apply str_truthy_app.
    apply dot_join_cons_step.
Qed.

(** At the root the path is empty, and stays empty along empty keys. *)
Lemma path_from_root ks : path_from "" ks = dot_join (drop_empty ks).
Proof.
  induction ks as [ | k ks IH].
  - reflexivity.
  - simpl. destruct (str_truthy k) eqn:Hk.
    + change (path_from "" (k :: ks)) with (path_from k ks).
      now apply path_from_truthy.
    + destruct k; [exact IH | discriminate].
Qed.

Lemma extract_all_commands_leaves commands :
  extract_all_commands commands =
  map (fun l => (dot_join (drop_empty (fst l)), snd l)) (leaves commands).
Proof.
  unfold extract_all_commands. rewrite extract_recursive_leaves. simpl.
  apply map_ext. intros [ks v]. unfold leaf_command. simpl.
  now rewrite path_from_root.
Qed.

Lemma is_table_dict_cons key value rest :
  is_table (VDict ((key, value) :: rest)) =
  is_table value && is_table (VDict rest).
Proof. reflexivity. Qed.

Lemma count_strings_dict_cons key value rest :
  count_strings (VDict ((key, value) :: rest)) =
  (count_strings value + count_strings (VDict rest))%nat.
Proof. reflexivity. Qed.

(** In a command table every string is a leaf. *)
Lemma leaves_count table :
  is_dict table = true -> is_table table = true ->
  List.length (leaves table) = count_strings table.
Proof.
  induction table as [ | b | z | q | s | l _ | items IH ] using pyvalue_ind;
    try discriminate.
  intros _. induction IH as [ | [key value] rest Hvalue _ IHrest ].
  - reflexivity.
  - rewrite is_table_dict_cons, leaves_dict_cons, count_strings_dict_cons.
    intros Htable. apply andb_prop in Htable as [Hv Hrest].
    rewrite length_app, (IHrest Hrest). f_equal.
    destruct value; try discriminate.
    + reflexivity.
    + unfold entry_leaves. rewrite length_map. now apply Hvalue.
Qed.

Lemma keys_nonempty_dict_cons key value rest :
  keys_nonempty (VDict ((key, value) :: rest)) =
  str_truthy key && keys_nonempty value && keys_nonempty (VDict rest).
Proof. reflexivity. Qed.

(** Without empty keys no leaf has a leading empty key. *)
Lemma keys_nonempty_leaves table :
  keys_nonempty table = true ->
  Forall (fun l => drop_empty (fst l) = fst l) (leaves table).
Proof.
  induction table as [ | b | z | q | s | l _ | items IH ] using pyvalue_ind;
    try (intros; now constructor).
  induction IH as [ | [key value] rest Hvalue _ IHrest ].
  - intros; constructor.
  - rewrite keys_nonempty_dict_cons, leaves_dict_cons. intros H.
    apply andb_prop in H as [H Hrest]. apply andb_prop in H as [Hk Hv].
    apply Forall_app. split; [ | now apply IHrest].
    assert (Hhead : forall ks, drop_empty (key :: ks) = key :: ks)
      by (intros ks; simpl; now rewrite Hk).
    destruct value; unfold entry_leaves;
      try (simpl; repeat constructor; now apply Hhead).
    apply Forall_map, Forall_forall. intros; apply Hhead.
Qed.

Lemma leaves_dict_app before after :
  leaves (VDict (before ++ after)) =
  (leaves (VDict before) ++ leaves (VDict after))%list.
Proof.
  induction before as [ | [key value] before IH].
  - reflexivity.
  - rewrite <- app_comm_cons, !leaves_dict_cons, IH. apply app_assoc.
Qed.

(** C5, as worded, fails: below an empty key the path loses its leading
    dot.  The table [{"": {"a": "X"}}] has the single leaf [X] under the
    keys [""] and ["a"], whose dot-joined sequence is [".a"];
    [extract_all_commands] names it ["a"]. *)
Lemma flatten_empty_key_counterexample :
  command_table (VDict [("", VDict [("a", VStr "X")])]) = true
  /\ flatten_spec (VDict [("", VDict [("a", VStr "X")])]) = [(".a", "X")]
  /\ extract_all_commands (VDict [("", VDict [("a", VStr "X")])]) = [("a", "X")]
  /\ extract_all_commands (VDict [("", VDict [("a", VStr "X")])])
     <> flatten_spec (VDict [("", VDict [("a", VStr "X")])]).
Proof. repeat split; try reflexivity. discriminate. Qed.

(** C5 (amended): for every command table with exactly N string leaves,
    [extract_all_commands] returns exactly N (path, payload) pairs, one per
    leaf, in pre-order depth-first order following the table's own key
    order; each path is the dot-joined sequence of the keys from the root
    to the leaf once the leading empty keys are dropped, hence the
    dot-joined sequence itself when the table has no empty key; a table
    with no string leaf gives the empty list. *)
Theorem flatten_preorder_paths table :
  command_table table = true ->
  List.length (extract_all_commands table) = count_strings table
  /\ extract_all_commands table =
     map (fun l => (dot_join (drop_empty (fst l)), snd l)) (leaves table)
  /\ (keys_nonempty table = true ->
      extract_all_commands table = flatten_spec table)
  /\ (count_strings table = 0%nat -> extract_all_commands table = []).
Proof.
  intros Htable. apply andb_prop in Htable as [Hdict Htable].
  pose proof (extract_all_commands_leaves table) as Hleaves.
  assert (Hlen : List.length (extract_all_commands table) = count_strings table)
    by (rewrite Hleaves, length_map; now apply leaves_count).
  repeat split; try assumption.
  - intros Hkeys. rewrite Hleaves. unfold flatten_spec.
    apply map_ext_in. intros l Hin.
    pose proof (keys_nonempty_leaves table Hkeys) as Hall.
    rewrite Forall_forall in Hall. now rewrite (Hall l Hin).
  - intros Hzero. rewrite Hzero in Hlen.
    now apply length_zero_iff_nil.
Qed.

Lemma flatten_preorder_paths_witness :
  extract_all_commands
    (VDict [("a", VDict [("b", VStr "X1"); ("c", VStr "X2")]);
            ("off", VStr "X3")])
  = [("a.b", "X1"); ("a.c", "X2"); ("off", "X3")].
Proof.
  pose proof (flatten_preorder_paths
    (VDict [("a", VDict [("b", VStr "X1"); ("c", VStr "X2")]);
            ("off", VStr "X3")]) eq_refl) as [_ [_ [H _]]].
  rewrite (H eq_refl). reflexivity.
Defined.

(** C10: a node whose value is neither a string nor a mapping yields no
    command and no error: [extract_recursive] returns the accumulator
    unchanged on it, the commands of a table are those of the table
    without that node, and a root of such a type flattens to the empty
    list. *)
Theorem flatten_skips_other_values value :
  is_str value = false -> is_dict value = false ->
  (forall path acc, extract_recursive value path acc = acc)
  /\ (forall key before after,
        extract_all_commands (VDict (before ++ (key, value) :: after)) =
        extract_all_commands (VDict (before ++ after)))
  /\ extract_all_commands value = [].
Proof.
  intros Hstr Hdict.
  assert (Hnone : leaves value = []) by (destruct value; try reflexivity; discriminate).
  repeat split.
  - intros path acc. rewrite extract_recursive_leaves, Hnone. apply app_nil_r.
  - intros key before after.
    rewrite !extract_all_commands_leaves, !leaves_dict_app, leaves_dict_cons.
    replace (entry_leaves leaves key value) with (@nil (list str * str)).
    + reflexivity.
    + destruct value; try discriminate; unfold entry_leaves; now rewrite ?Hnone.
  - now rewrite extract_all_commands_leaves, Hnone.
Qed.

Lemma flatten_skips_other_values_witness :
  extract_all_commands
    (VDict ([("on", VStr "X1")] ++ ("fan", VList [VStr "X2"; VInt 3])
            :: [("off", VStr "X3")]))
  = [("on", "X1"); ("off", "X3")].
Proof.
  pose proof (flatten_skips_other_values (VList [VStr "X2"; VInt 3])
                eq_refl eq_refl) as [_ [H _]].
  rewrite H. reflexivity.
Defined.

End Flatten.

(* ================================================================= *)
(** ** The controller registry *)

Section Registry.

Import Controller.

Lemma py_in_raw encoding :
  encoding <> ENC_RAW -> py_in encoding [ENC_RAW] = false.
Proof.
  intros Hneq. unfold py_in. simpl.
  apply String.eqb_neq in Hneq. now rewrite Hneq.
Qed.

(** Instantiating either class with the Raw encoding succeeds and leaves
    the host untouched. *)
Lemma new_raw c controller controller_data delay hass :
  new c controller ENC_RAW controller_data delay hass =
  (Ok {| cls := c; _controller := controller; _encoding := ENC_RAW;
         _controller_data := controller_data; _delay := delay |}, hass).
Proof. destruct c; reflexivity. Qed.

(** C1 (the code departs from it): asked for the MQTT kind, for which the
    registry lists [MQTTController], [get_controller] returns an instance
    of [UFOR11Controller], whose [send] publishes the JSON envelope and not
    the command itself. *)
Theorem get_controller_mqtt_gives_ufor11 controller_data delay command :
  registered MQTT_CONTROLLER = Some MQTTController
  /\ get_controller MQTT_CONTROLLER ENC_RAW controller_data delay quiet_hass =
     (Ok {| cls := UFOR11Controller; _controller := MQTT_CONTROLLER;
            _encoding := ENC_RAW; _controller_data := controller_data;
            _delay := delay |}, quiet_hass)
  /\ calls (snd (send {| cls := UFOR11Controller; _controller := MQTT_CONTROLLER;
                         _encoding := ENC_RAW;
                         _controller_data := controller_data;
                         _delay := delay |} command quiet_hass)) =
     [{| domain := "mqtt"; service := "publish";
         service_data := [("topic", controller_data);
                          ("payload", json_dumps [("ir_code_to_send", command)])] |}].
Proof. repeat split. Qed.

(** C2 (the code departs from it): whatever the controller kind, known or
    not, [get_controller] with the Raw encoding returns an instance of
    [UFOR11Controller] and raises nothing. *)
Theorem get_controller_accepts_any_kind controller controller_data delay hass :
  get_controller controller ENC_RAW controller_data delay hass =
  (Ok {| cls := UFOR11Controller; _controller := controller;
         _encoding := ENC_RAW; _controller_data := controller_data;
         _delay := delay |}, hass).
Proof. reflexivity. Qed.

(** C3: with an encoding other than Raw, instantiating either class, and
    [get_controller] for any kind, raises the unsupported-encoding error;
    the host is as before, so no service was called. *)
Theorem unsupported_encoding_rejected c controller encoding controller_data delay hass :
  encoding <> ENC_RAW ->
  (exists e,
     new c controller encoding controller_data delay hass = (Raise e, hass)
     /\ UnsupportedEncodingError e)
  /\ (exists e,
        get_controller controller encoding controller_data delay hass =
        (Raise e, hass)
        /\ UnsupportedEncodingError e).
Proof.
  intros Hneq. pose proof (py_in_raw encoding Hneq) as Hin.
  split.
  - unfold new, check_encoding, bind, when, raise.
    unfold MQTT_COMMANDS_ENCODING, UFOR11_COMMANDS_ENCODING.
    destruct c; rewrite Hin; simpl; eexists;
      (split; [reflexivity | ]); [left | right]; reflexivity.
  - unfold get_controller, try_except, new, check_encoding, bind, when, raise.
    unfold UFOR11_COMMANDS_ENCODING. rewrite Hin. simpl.
    eexists. split; [reflexivity | right; reflexivity].
Qed.

Lemma unsupported_encoding_rejected_witness :
  ENC_HEX <> ENC_RAW
  /\ exists e,
       new MQTTController MQTT_CONTROLLER ENC_HEX "ir/topic" 0 quiet_hass =
       (Raise e, quiet_hass)
       /\ UnsupportedEncodingError e.
Proof.
  assert (Hneq : ENC_HEX <> ENC_RAW) by discriminate.
  split; [exact Hneq | ].
  exact (proj1 (unsupported_encoding_rejected MQTTController MQTT_CONTROLLER
                  ENC_HEX "ir/topic" 0 quiet_hass Hneq)).
Defined.

(** *** What [json.dumps] writes *)

Lemma read_string_body_escape_char c rest :
  read_string_body (escape_char c ++ rest) =
  push (Some c) (read_string_body rest).
Proof.
  destruct c as [[] [] [] [] [] [] [] []]; reflexivity.
Qed.

(** Reading back an escaped string gives the string, and stops at the
    closing quote. *)
Lemma read_string_body_escape_chars s tail :
  read_string_body (escape_chars s ++ dquote ++ tail) = Some (s, tail).
Proof.
  induction s as [ | c s IH]; [reflexivity | ].
  cbn [escape_chars]. rewrite string_app_assoc, read_string_body_escape_char.
  now rewrite IH.
Qed.










(** A class accepts exactly the encodings of its list. *)
Lemma check_encoding_supported c encoding hass :
  check_encoding c encoding hass =
  (if py_in encoding (supported_encodings c) then Ok tt
   else Raise (Exception
                 (match c with
                  | MQTTController =>
                      "The encoding is not supported by the mqtt controller."
                  | UFOR11Controller =>
                      "The encoding is not supported by the UFO-R11 controller."
                  end)),
   hass).
Proof.
  destruct c; unfold check_encoding, supported_encodings, when;
    destruct (py_in encoding _); reflexivity.
Qed.

(** Both classes accept the Raw encoding and no other of the four. *)
Example supported_encodings_raw_only :
  forall c,
    map (fun encoding => py_in encoding (supported_encodings c))
        [ENC_BASE64; ENC_HEX; ENC_PRONTO; ENC_RAW]
    = [false; false; false; true].
Proof. intros []; reflexivity. Qed.

(** The envelope of the command [AABB]. *)
Example envelope_AABB :
  json_dumps [("ir_code_to_send", "AABB")] =
  "{" ++ dquote ++ "ir_code_to_send" ++ dquote ++ ": "
      ++ dquote ++ "AABB" ++ dquote ++ "}".
Proof. reflexivity. Qed.

(** The quote, the backslash, control characters and the characters
    above [~] are escaped. *)
Example envelope_escapes :
  json_dumps [("ir_code_to_send",
               "a" ++ dquote ++ "b\c" ++ newline ++ String "233"%char "")] =
  "{" ++ dquote ++ "ir_code_to_send" ++ dquote ++ ": "
      ++ dquote ++ "a\" ++ dquote ++ "b\\c\n\u00e9" ++ dquote ++ "}".
Proof. reflexivity. Qed.

(** [str] of a [KeyError] is the [repr] of its key: in double quotes when
    the key holds a single quote and no double quote, with control
    characters escaped. *)
Example exn_str_KeyError :
  exn_str (KeyError "MQTT") = "'MQTT'"
  /\ exn_str (KeyError "it's") = dquote ++ "it's" ++ dquote
  /\ exn_str (KeyError ("a" ++ newline)) = "'a\n'".
Proof. repeat split. Qed.

End Registry.

(* ================================================================= *)
(** ** Reasoning about computations *)

Section Monad.

Context {S : Type}.

Lemma bind_ok {A B} (c : M S A) (k : A -> M S B) s a s' :
  c s = (Ok a, s') -> bind c k s = k a s'.
Proof. intros H. unfold bind. now rewrite H. Qed.

Lemma bind_raise {A B} (c : M S A) (k : A -> M S B) s e s' :
  c s = (Raise e, s') -> bind c k s = (Raise e, s').
Proof. intros H. unfold bind. now rewrite H. Qed.

Variable R : S -> S -> Prop.
Hypothesis R_refl : forall s, R s s.
Hypothesis R_trans : forall a b c, R a b -> R b c -> R a c.

Lemma respects_ret {A} (a : A) : respects R (ret a).
Proof. intros s. apply R_refl. Qed.

Lemma respects_raise {A} e : respects R (@raise S A e).
Proof. intros s. apply R_refl. Qed.

Lemma respects_get : respects R (@get S).
Proof. intros s. apply R_refl. Qed.

Lemma respects_modify f : (forall s, R s (f s)) -> respects R (modify f).
Proof. intros H s. apply H. Qed.

Lemma respects_bind {A B} (c : M S A) (k : A -> M S B) :
  respects R c -> (forall a, respects R (k a)) -> respects R (bind c k).
Proof.
  intros Hc Hk s. unfold bind. specialize (Hc s).
  destruct (c s) as [[a | e] s']; simpl in *.
  - eapply R_trans; [exact Hc | apply Hk].
  - exact Hc.
Qed.

Lemma respects_when cond (body : M S unit) :
  respects R body -> respects R (when cond body).
Proof. intros H. destruct cond; [exact H | apply respects_ret]. Qed.

Lemma respects_try_except {A} (body : M S A) handler :
  respects R body ->
  (forall e, match handler e with Some h => respects R h | None => True end) ->
  respects R (try_except body handler).
Proof.
  intros Hb Hh s. unfold try_except. specialize (Hb s).
  destruct (body s) as [[a | e] s']; simpl in *; [exact Hb | ].
  specialize (Hh e). destruct (handler e) as [h | ]; [ | exact Hb].
  eapply R_trans; [exact Hb | apply Hh].
Qed.

Lemma respects_try_finally {A} (body : M S A) cleanup :
  respects R body -> respects R cleanup ->
  respects R (try_finally body cleanup).
Proof.
  intros Hb Hc s. unfold try_finally. specialize (Hb s).
  destruct (body s) as [r s']. specialize (Hc s').
  destruct (cleanup s') as [[[] | e] s'']; simpl in *;
    eapply R_trans; eassumption.
Qed.

End Monad.

(* ================================================================= *)
(** ** Frames of the runner's parts *)

Section Frames.

Import Runner.

Lemma within_refl F s : within F s s.
Proof.
  repeat split; try reflexivity.
  exists []. now rewrite app_nil_r.
Qed.

Lemma within_trans F a b c : within F a b -> within F b c -> within F a c.
Proof.
  intros [[e1 [T1 P1]] [C1 [I1 [U1 D1]]]] [[e2 [T2 P2]] [C2 [I2 [U2 D2]]]].
  repeat split.
  - exists (e1 ++ e2)%list. split.
    + now rewrite T2, T1, app_assoc.
    + rewrite forallb_app, P1, P2. reflexivity.
  - intros H. now rewrite C2, C1.
  - intros H. now rewrite I2, I1.
  - intros H. now rewrite U2, U1.
  - intros H. now rewrite D2, D1.
Qed.

Lemma within_narrower F G s s' : narrower F G -> within F s s' -> within G s s'.
Proof.
  intros [HP [HC [HI [HU HD]]]] [[evs [T P]] [C [I [U D]]]].
  repeat split; auto.
  exists evs. split; [exact T | ].
  rewrite forallb_forall in *. auto.
Qed.

Lemma respects_narrower {A} F G (c : M Proc A) :
  respects (within F) c -> narrower F G -> respects (within G) c.
Proof. intros H HFG s. eapply within_narrower; [exact HFG | apply H]. Qed.

End Frames.

(** A frame with fixed content: comparing it with another one, and
    checking one update of the store against it, are computations. *)
Ltac narrow :=
  unfold narrower; cbn;
  repeat split;
  try (intros; reflexivity);
  try (intros; discriminate);
  try (intros []; cbn; intros; first [reflexivity | discriminate]).

Ltac frame_leaf :=
  intros; unfold within; cbn;
  repeat split;
  try (intros; reflexivity);
  try (intros; discriminate);
  first [ exists []; split; [symmetry; apply app_nil_r | reflexivity]
        | eexists; split; reflexivity ].

Create HintDb frame.

Ltac frame :=
  first
    [ eapply respects_narrower; [solve [eauto with frame] | solve [narrow]]
    | apply respects_ret; apply within_refl
    | apply respects_raise; apply within_refl
    | apply respects_get; apply within_refl
    | apply respects_modify; solve [frame_leaf]
    | apply respects_when; [apply within_refl | frame]
    | apply respects_bind; [apply within_trans | frame | intro; frame]
    | apply respects_try_except;
        [ apply within_trans | frame
        | let e := fresh "e" in
          intro e; destruct e; cbn; try exact I; frame ]
    | apply respects_try_finally; [apply within_trans | frame | frame]
    | match goal with
      | |- respects _ (if ?b then _ else _) => destruct b; frame
      | |- respects _ (match ?x with _ => _ end) => destruct x; frame
      end ].

(** Running the straight-line part of a computation. *)
Ltac run :=
  cbv beta iota zeta delta
    [bind ret raise get modify when try_except try_finally
     Runner.emit Runner.log Runner.set_client Runner.set_connected
     Runner.sys_exit Runner.init];
  cbn [negb fst snd Runner.trace Runner.reads Runner.publishes Runner.inputs
       Runner.client Runner.connected].

Section RunnerProperties.

Import Runner.

(** Callbacks only log, and set [self.connected]. *)
Lemma run_callback_frame cb : respects (within logging) (run_callback cb).
Proof. destruct cb as [rc | rc | mid]; cbn; unfold _on_connect, _on_disconnect, _on_publish; frame. Qed.

Hint Resolve run_callback_frame : frame.

Lemma network_thread_frame cbs : respects (within logging) (network_thread cbs).
Proof. induction cbs as [ | cb cbs IH]; cbn; frame. Qed.

Hint Resolve network_thread_frame : frame.

Lemma read_connected_frame w : respects (within reading) (read_connected w).
Proof. unfold read_connected. frame. Qed.

Hint Resolve read_connected_frame : frame.

Lemma wait_connected_frame w timeout :
  respects (within waiting) (wait_connected w timeout).
Proof.
  funelim (wait_connected w timeout).
  apply respects_bind; [apply within_trans | frame | intros c].
  destruct (negb c); [ | frame].
  destruct (Qlt_le_dec 0 timeout) as [Hpos | Hle]; [ | frame].
  apply respects_bind; [apply within_trans | frame | intros u].
  intros s. exact (H c Hpos u s s).
Qed.

Hint Resolve wait_connected_frame : frame.

Lemma do_connect_frame w host port keepalive :
  respects (within connecting) (do_connect w host port keepalive).
Proof. unfold do_connect. frame. Qed.

Hint Resolve do_connect_frame : frame.

Lemma connect_frame w self : respects (within connecting) (connect w self).
Proof. unfold connect. frame. Qed.

Lemma do_publish_frame w topic payload :
  respects (within sending) (do_publish w topic payload).
Proof. unfold do_publish. frame. Qed.

Hint Resolve do_publish_frame : frame.

Lemma send_command_frame w self command_name command_data :
  respects (within sending) (send_command w self command_name command_data).
Proof. unfold send_command. frame. Qed.

Hint Resolve send_command_frame : frame.

Lemma get_user_confirmation_frame w :
  respects (within prompting) (get_user_confirmation w).
Proof. unfold get_user_confirmation, do_input. frame. Qed.

Hint Resolve get_user_confirmation_frame : frame.

(** One turn of the loop. *)
Lemma for_commands_cons w mqtt_client total i command_name command_data rest :
  for_commands w mqtt_client total i ((command_name, command_data) :: rest) =
  (emit (Print (newline ++ "--- Command " ++ str_of_nat i ++ "/"
                ++ str_of_nat total ++ ": " ++ command_name ++ " ---")) ;;
   emit (Print ("Command data: " ++ substring 0 50 command_data
                ++ (if Nat.ltb 50 (String.length command_data)
                    then "..." else ""))) ;;
   success <- send_command w mqtt_client command_name command_data ;;
   when (negb success)
     (log WARNING ("Failed to send command '" ++ command_name ++ "'")) ;;
   if Nat.ltb i total then
     continue <- get_user_confirmation w ;;
     if negb continue then
       log INFO "User requested to stop. Exiting..."
     else for_commands w mqtt_client total (S i) rest
   else for_commands w mqtt_client total (S i) rest).
Proof. reflexivity. Qed.

Lemma for_commands_frame w mqtt_client total rest :
  forall i, respects (within replaying) (for_commands w mqtt_client total i rest).
Proof.
  induction rest as [ | [command_name command_data] rest IH]; intros i.
  - cbn. frame.
  - rewrite for_commands_cons.
    repeat (apply respects_bind; [apply within_trans | frame | intro]).
    destruct (Nat.ltb i total); [ | apply IH].
    apply respects_bind; [apply within_trans | frame | intros continue].
    destruct continue; cbn; [apply IH | frame].
Qed.

Lemma load_toshiba_commands_frame w path :
  respects (within logging) (load_toshiba_commands w path).
Proof. unfold load_toshiba_commands. frame. Qed.

Hint Resolve load_toshiba_commands_frame : frame.

Lemma main_setup_frame w cfg : respects (within setting_up) (main_setup w cfg).
Proof. unfold main_setup, get_commands, init. frame. Qed.


(** *** Reading [self.connected] *)

Lemma network_thread_run cbs :
  forall s, exists s',
    network_thread cbs s = (Ok tt, s')
    /\ connected s' = flag_after cbs (connected s).
Proof.
  induction cbs as [ | cb cbs IH]; intros s.
  - exists s. split; reflexivity.
  - assert (Hcb : exists s1, run_callback cb s = (Ok tt, s1)
                  /\ connected s1 = flag_after [cb] (connected s)).
    { destruct cb as [rc | rc | mid]; cbn;
        unfold _on_connect, _on_disconnect.
      - destruct (Z.eqb rc 0); eexists; split; reflexivity.
      - destruct (Z.eqb rc 0); eexists; split; reflexivity.
      - eexists; split; reflexivity. }
    destruct Hcb as (s1 & Hrun & Hflag).
    destruct (IH s1) as (s' & Hrest & Hflag').
    exists s'. split.
    + cbn [network_thread]. now rewrite (bind_ok _ _ _ _ _ Hrun).
    + rewrite Hflag', Hflag. reflexivity.
Qed.

(** A read returns the flag as the callbacks run since the previous read
    have left it, and counts as one read. *)
Lemma read_connected_run w s :
  exists logs s',
    read_connected w s = (Ok (connected s'), s')
    /\ connected s' = flag_after (callbacks w (reads s)) (connected s)
    /\ trace s' = (trace s ++ logs)%list
    /\ forallb is_log logs = true
    /\ reads s' = S (reads s)
    /\ client s' = client s
    /\ inputs s' = inputs s
    /\ publishes s' = publishes s.
Proof.
  destruct (network_thread_run (callbacks w (reads s)) s) as (s1 & Hrun & Hflag).
  pose proof (network_thread_frame (callbacks w (reads s)) s) as Hframe.
  rewrite Hrun in Hframe. cbn in Hframe.
  destruct Hframe as [[logs [Htrace Hlogs]] [Hc [Hi [Hp Hr]]]].
  exists logs.
  exists {| trace := trace s1; reads := S (reads s1); publishes := publishes s1;
            inputs := inputs s1; client := client s1; connected := connected s1 |}.
  split; [ | repeat split].
  - unfold read_connected. unfold bind at 1. cbn [get].
    rewrite (bind_ok _ _ _ _ _ Hrun). reflexivity.
  - exact Hflag.
  - exact Htrace.
  - exact Hlogs.
  - cbn. now rewrite Hr.
  - now apply Hc.
  - now apply Hi.
  - now apply Hp.
Qed.

(** *** The guard on an empty table *)

(** C6, as worded, fails: the table [{"a": {}}] flattens to no command,
    yet the runner creates the client, connects, starts the network loop,
    and only then finds nothing to send. *)
Lemma nested_empty_table_counterexample :
  let w := {| file := Loaded (VDict [("commands", VDict [("a", VDict [])])]);
              client_connect := None;
              callbacks := fun n => match n with O => [OnConnect 0] | _ => [] end;
              publish := fun _ => Published 0;
              input := fun _ => Line "" |} in
  let cfg := {| cfg_host := "localhost"; cfg_port := 1883;
                cfg_topic := "smartir/send_command"; cfg_username := None;
                cfg_password := None;
                commands_file := "codes/climate/toshiba.json" |} in
  command_table (VDict [("a", VDict [])]) = true
  /\ extract_all_commands (VDict [("a", VDict [])]) = []
  /\ fst (main w cfg initial) = Ok tt
  /\ filter is_transport (trace (snd (main w cfg initial))) =
     [ClientNew; Connect "localhost" 1883 60; LoopStart; LoopStop; Disconnect].
Proof. vm_compute. repeat split. Qed.

(** C6 (amended): when the [commands] entry of the device file is missing
    or empty (falsy), the runner reports it and exits with status 1; no
    event of the run touches the transport client, which is never
    created. *)
Theorem empty_table_exits_before_connecting w cfg items :
  file w = Loaded (VDict items) ->
  truthy (match dict_get items "commands" with
          | Some v => v
          | None => VDict []
          end) = false ->
  fst (main w cfg initial) = Raise (SystemExit 1)
  /\ exit_status (fst (main w cfg initial)) = 1%Z
  /\ filter is_transport (trace (snd (main w cfg initial))) = []
  /\ client (snd (main w cfg initial)) = None
  /\ (exists logs,
        trace (snd (main w cfg initial)) =
        (logs ++ [Log ERROR "No commands found in the device file"])%list).
Proof.
  intros Hfile Hfalsy.
  unfold main, main_setup, load_toshiba_commands, get_commands.
  rewrite Hfile. run. rewrite Hfalsy. run.
  repeat split.
  eexists. cbn [initial trace app].
  instantiate (1 := [_; _; _; _; _]). reflexivity.
Qed.

Lemma empty_table_exits_before_connecting_witness :
  exit_status
    (fst (main {| file := Loaded (VDict [("commands", VDict [])]);
                  client_connect := None;
                  callbacks := fun _ => [OnConnect 0];
                  publish := fun _ => Published 0;
                  input := fun _ => Line "" |}
               {| cfg_host := "localhost"; cfg_port := 1883;
                  cfg_topic := "smartir/send_command"; cfg_username := None;
                  cfg_password := None;
                  commands_file := "codes/climate/toshiba.json" |}
               initial)) = 1%Z.
Proof.
  refine (proj1 (proj2 (empty_table_exits_before_connecting _ _
                          [("commands", VDict [])] _ _))); reflexivity.
Defined.

(** *** Waiting for the connection *)

Lemma flag_after_silent cbs :
  existsb connack cbs = false -> flag_after cbs false = false.
Proof.
  induction cbs as [ | cb cbs IH]; [reflexivity | ].
  cbn [existsb]. intros H. apply orb_false_elim in H as [Hcb Hrest].
  unfold flag_after in *. cbn [fold_left].
  destruct cb as [rc | rc | mid]; cbn in Hcb; try rewrite Hcb; now apply IH.
Qed.

Lemma filter_sleep_logs logs :
  forallb is_log logs = true -> filter is_sleep logs = [].
Proof.
  induction logs as [ | e logs IH]; [reflexivity | ].
  cbn [forallb]. intros H. apply andb_prop in H as [He Hrest].
  destruct e; try discriminate. cbn. now apply IH.
Qed.

Lemma forallb_weaken {A} (p q : A -> bool) l :
  (forall x, p x = true -> q x = true) ->
  forallb p l = true -> forallb q l = true.
Proof. rewrite !forallb_forall. auto. Qed.

Lemma inject_Z_succ n :
  inject_Z (Z.of_nat (S n)) == inject_Z (Z.of_nat n) + 1.
Proof. rewrite Nat2Z.inj_succ. unfold Z.succ. now rewrite inject_Z_plus. Qed.

(** With no successful connected-callback the loop sleeps until the
    timeout is used up: [n] half seconds for a timeout of [n / 2]. *)
Lemma wait_connected_times_out w n :
  forall timeout s,
    timeout * 2 == inject_Z (Z.of_nat n) ->
    connected s = false ->
    (forall k, (reads s <= k <= reads s + n)%nat ->
               existsb connack (callbacks w k) = false) ->
    exists evs s',
      wait_connected w timeout s = (Ok tt, s')
      /\ trace s' = (trace s ++ evs)%list
      /\ filter is_sleep evs = repeat (Sleep (1 # 2)) n
      /\ forallb is_log_or_sleep evs = true
      /\ connected s' = false
      /\ reads s' = (reads s + S n)%nat
      /\ client s' = client s
      /\ inputs s' = inputs s
      /\ publishes s' = publishes s.
Proof.
  induction n as [ | n IH]; intros timeout s Htime Hflag Hsilent;
    rewrite wait_connected_equation_1;
    destruct (read_connected_run w s)
      as (logs & s1 & Hrun & Hflag1 & Htrace1 & Hlogs1 & Hreads1 & Hclient1
          & Hinputs1 & Hpublishes1);
    rewrite (bind_ok _ _ _ _ _ Hrun);
    rewrite Hflag, flag_after_silent in Hflag1 by (apply Hsilent; lia);
    rewrite Hflag1; cbn [negb];
    destruct (Qlt_le_dec 0 timeout) as [Hpos | Hle].
  - exfalso. change (inject_Z (Z.of_nat 0)) with 0 in Htime. lra.
  - exists logs, s1. repeat split; try assumption.
    + now apply filter_sleep_logs.
    + revert Hlogs1. apply forallb_weaken. intros e He.
      unfold is_log_or_sleep. now rewrite He.
    + rewrite Hreads1. lia.
  - rewrite inject_Z_succ in Htime.
    pose (s2 := {| trace := (trace s1 ++ [Sleep (1 # 2)])%list;
                   reads := reads s1; publishes := publishes s1;
                   inputs := inputs s1; client := client s1;
                   connected := connected s1 |}).
    destruct (IH (timeout - (1 # 2)) s2) as
      (evs & s' & Hwait & Htrace & Hsleeps & Hevs & Hflag' & Hreads'
       & Hclient' & Hinputs' & Hpublishes').
    + lra.
    + exact Hflag1.
    + intros k Hk. apply Hsilent. cbn in Hk. lia.
    + exists (logs ++ Sleep (1 # 2) :: evs)%list, s'. repeat split.
      * exact Hwait.
      * rewrite Htrace. cbn [s2 trace]. rewrite Htrace1.
        rewrite <- !app_assoc. reflexivity.
      * rewrite filter_app, (filter_sleep_logs _ Hlogs1). cbn.
        now rewrite Hsleeps.
      * rewrite forallb_app. cbn. rewrite Hevs.
        rewrite (forallb_weaken is_log is_log_or_sleep _) ; [reflexivity | | exact Hlogs1].
        intros e He. unfold is_log_or_sleep. now rewrite He.
      * exact Hflag'.
      * rewrite Hreads'. cbn [s2 reads]. lia.
      * now rewrite Hclient'.
      * now rewrite Hinputs'.
      * now rewrite Hpublishes'.
  - exfalso. rewrite inject_Z_succ in Htime.
    assert (0 <= inject_Z (Z.of_nat n)).
    { change 0 with (inject_Z 0). rewrite <- Zle_Qle. lia. }
    lra.
Qed.

(** When the setup succeeds the store holds a fresh tester and a trace of
    log records only. *)
Lemma main_setup_ok w cfg mqtt_client all_commands s1 :
  main_setup w cfg initial = (Ok (mqtt_client, all_commands), s1) ->
  mqtt_client = {| mqtt_host := cfg_host cfg; mqtt_port := cfg_port cfg;
                   mqtt_topic := cfg_topic cfg;
                   mqtt_username := cfg_username cfg;
                   mqtt_password := cfg_password cfg |}
  /\ forallb is_log (trace s1) = true
  /\ connected s1 = false
  /\ client s1 = None
  /\ reads s1 = 0%nat
  /\ inputs s1 = 0%nat
  /\ publishes s1 = 0%nat.
Proof.
  unfold main_setup, load_toshiba_commands, get_commands.
  destruct (file w) as [ | msg | msg | data]; run; try discriminate.
  destruct data; run; try discriminate.
  match goal with |- context [truthy ?c] => destruct (truthy c) end;
    run; try discriminate.
  intros H. injection H as Hc Hcmds Hs. subst.
  repeat split.
Qed.

(** With no successful connected-callback, [connect] gives up after 20
    sleeps of half a second. *)
Lemma connect_times_out w self s :
  client_connect w = None ->
  connected s = false ->
  (forall k, (reads s <= k <= reads s + 21)%nat ->
             existsb connack (callbacks w k) = false) ->
  exists evs s',
    connect w self s = (Ok false, s')
    /\ trace s' =
       (trace s ++ evs
        ++ [Log ERROR "Failed to connect to MQTT broker within timeout"])%list
    /\ filter is_sleep evs = repeat (Sleep (1 # 2)) 20.
Proof.
  intros Hconnect Hflag Hsilent.
  unfold connect, do_connect. rewrite Hconnect.
  destruct (opt_truthy (mqtt_username self) && opt_truthy (mqtt_password self));
    run;
    match goal with
    | |- context [wait_connected w 10 ?s0] =>
        destruct (wait_connected_times_out w 20 10 s0)
          as (evs & s1 & Hwait & Htrace & Hsleeps & Hevs & Hflag1 & Hreads1 & _);
          [ reflexivity | exact Hflag
          | intros k Hk; apply Hsilent; cbn in Hk; lia | ]
    end;
    rewrite Hwait;
    destruct (read_connected_run w s1)
      as (logs & s2 & Hrun & Hflag2 & Htrace2 & Hlogs2 & _);
    rewrite Hrun;
    rewrite Hflag1, flag_after_silent in Hflag2
      by (apply Hsilent; rewrite Hreads1; cbn; lia);
    rewrite Hflag2; cbn [trace negb] in *;
    rewrite <- !app_assoc in Htrace; cbn [app] in Htrace;
    match type of Htrace with
    | _ = (_ ++ ?pre)%list =>
        exists (pre ++ logs)%list; eexists; split; [reflexivity | ]
    end;
    cbn [trace]; rewrite Htrace2, Htrace; split;
    try (rewrite <- !app_assoc; reflexivity).
  - cbn [app filter is_sleep].
    rewrite !filter_app, Hsleeps, (filter_sleep_logs _ Hlogs2).
    apply app_nil_r.
  - cbn [app filter is_sleep].
    rewrite !filter_app, Hsleeps, (filter_sleep_logs _ Hlogs2).
    apply app_nil_r.
Qed.

Lemma filter_none {A} (p q : A -> bool) l :
  (forall x, q x = true -> p x = false) ->
  forallb q l = true -> filter p l = [].
Proof.
  intros Hpq. induction l as [ | x l IH]; [reflexivity | ].
  cbn [forallb filter]. intros H. apply andb_prop in H as [Hx Hl].
  rewrite (Hpq x Hx). now apply IH.
Qed.

(** C9: when the setup has succeeded, [client.connect] returns, and no
    successful connected-callback has run by any of the 22 reads of
    [self.connected] that [connect] makes, the run sleeps 20 times half a
    second (the timeout of 10), reports the timeout, publishes nothing,
    and ends in [sys.exit(1)]. *)
Theorem connection_timeout_aborts w cfg mqtt_client all_commands s1 :
  main_setup w cfg initial = (Ok (mqtt_client, all_commands), s1) ->
  client_connect w = None ->
  (forall n, (n < 22)%nat -> existsb connack (callbacks w n) = false) ->
  fst (main w cfg initial) = Raise (SystemExit 1)
  /\ exit_status (fst (main w cfg initial)) <> 0%Z
  /\ filter is_publish (trace (snd (main w cfg initial))) = []
  /\ filter is_sleep (trace (snd (main w cfg initial))) =
     repeat (Sleep (1 # 2)) 20
  /\ (exists before,
        trace (snd (main w cfg initial)) =
        (before
         ++ [Log ERROR "Failed to connect to MQTT broker within timeout";
             Log ERROR "Failed to connect to MQTT broker"])%list).
Proof.
  intros Hsetup Hconnect Hsilent.
  destruct (main_setup_ok _ _ _ _ _ Hsetup)
    as (_ & Hlogs & Hflag & _ & Hreads & _).
  destruct (connect_times_out w mqtt_client s1 Hconnect Hflag)
    as (evs & s2 & Hrun & Htrace & Hsleeps).
  { intros k Hk. apply Hsilent. lia. }
  pose proof (connect_frame w mqtt_client s1) as Hframe.
  rewrite Hrun in Hframe. destruct Hframe as [[evs' [Htrace' Hevs']] _].
  cbn [snd] in Htrace'. rewrite Htrace in Htrace'.
  apply app_inv_head in Htrace'. subst evs'.
  unfold main. rewrite (bind_ok _ _ _ _ _ Hsetup). cbn [fst snd].
  rewrite (bind_ok _ _ _ _ _ Hrun). run. rewrite Htrace.
  repeat split.
  - discriminate.
  - assert (Hnone : filter is_publish
              (evs ++ [Log ERROR "Failed to connect to MQTT broker within timeout"])
            = []).
    { apply (filter_none is_publish (events connecting)); [ | exact Hevs'].
      intros e He. cbn in He.
      destruct (is_publish e); [discriminate He | reflexivity]. }
    rewrite filter_app, filter_app, Hnone.
    rewrite (filter_none is_publish is_log (trace s1)); trivial.
    now intros [].
  - rewrite <- !app_assoc, !filter_app.
    rewrite (filter_sleep_logs _ Hlogs), Hsleeps. reflexivity.
  - exists (trace s1 ++ evs)%list. now rewrite <- !app_assoc.
Qed.

Lemma connection_timeout_aborts_witness :
  exit_status
    (fst (main {| file := Loaded (VDict [("commands", VDict [("on", VStr "X1")])]);
                  client_connect := None;
                  callbacks := fun n => if Nat.ltb n 22 then [OnConnect 5] else [OnConnect 0];
                  publish := fun _ => Published 0;
                  input := fun _ => Line "" |}
               {| cfg_host := "localhost"; cfg_port := 1883;
                  cfg_topic := "smartir/send_command"; cfg_username := None;
                  cfg_password := None;
                  commands_file := "codes/climate/toshiba.json" |}
               initial)) <> 0%Z.
Proof.
  refine (proj1 (proj2 (connection_timeout_aborts _ _ _ _ _ _ _ _))).
  - vm_compute. reflexivity.
  - reflexivity.
  - intros n Hn. cbn [callbacks].
    apply Nat.ltb_lt in Hn. rewrite Hn. reflexivity.
Defined.

(** *** Sending one command *)

(** [send_command] reads the flag once; when it is set and the client
    exists, the next event is the publish of the envelope, else an error
    record; only log records follow. *)
Lemma send_command_run w self command_name command_data s :
  client s = Some PahoClient ->
  exists logs more r s',
    send_command w self command_name command_data s = (r, s')
    /\ forallb is_log logs = true
    /\ forallb is_log more = true
    /\ trace s' =
       (trace s ++ logs
        ++ (if flag_after (callbacks w (reads s)) (connected s)
            then Publish (mqtt_topic self) (envelope command_data)
            else Log ERROR "Not connected to MQTT broker") :: more)%list
    /\ r = (if flag_after (callbacks w (reads s)) (connected s)
            then send_result (publish w (publishes s))
            else Ok false)
    /\ inputs s' = inputs s
    /\ client s' = client s.
Proof.
  intros Hclient. unfold send_command.
  destruct (read_connected_run w s)
    as (logs & s1 & Hrun & Hflag1 & Htrace1 & Hlogs1 & Hreads1 & Hclient1
        & Hinputs1 & Hpublishes1).
  rewrite (bind_ok _ _ _ _ _ Hrun), Hflag1.
  exists logs.
  destruct (flag_after (callbacks w (reads s)) (connected s)); cbn [negb].
  - unfold do_publish, envelope. run.
    rewrite Hclient1, Hclient, Hpublishes1.
    destruct (publish w (publishes s)) as [rc | e]; cbn [send_result];
      [ destruct (Z.eqb rc MQTT_ERR_SUCCESS) | destruct (is_Exception e) ];
      run;
      try match goal with
          | |- context [ (_ ++ [Log ?lvl ?msg])%list ] => exists [Log lvl msg]
          end;
      try (exists []);
      eexists; eexists; (split; [reflexivity | ]); cbn [trace inputs client];
      rewrite Htrace1, <- ?app_assoc; repeat split; auto; congruence.
  - run. exists []. eexists; eexists. split; [reflexivity | ].
    cbn [trace inputs client]. rewrite Htrace1, <- ?app_assoc.
    repeat split; auto.
Qed.

Hint Resolve for_commands_frame : frame.

Lemma send_result_fails o : publish_fails o -> send_result o = Ok false.
Proof.
  destruct o as [rc | e]; cbn; intros H.
  - apply Z.eqb_neq in H. now rewrite H.
  - now rewrite H.
Qed.

(** *** One turn of the loop *)

(** A turn prints its two lines and then makes its attempt, whatever
    follows. *)
Lemma turn_starts_with_attempt w mqtt_client total i command_name command_data rest s :
  client s = Some PahoClient ->
  exists logs after,
    forallb is_log logs = true
    /\ trace (snd (for_commands w mqtt_client total i
                     ((command_name, command_data) :: rest) s)) =
       (trace s
        ++ [Print (header i total command_name); Print (preview command_data)]
        ++ logs
        ++ attempt (flag_after (callbacks w (reads s)) (connected s))
                   (mqtt_topic mqtt_client) command_data
           :: after)%list.
Proof.
  intros Hclient. rewrite for_commands_cons.
  unfold bind at 1, emit at 1, modify at 1. unfold bind at 1, emit at 1, modify at 1.
  match goal with
  | |- context [bind (send_command _ _ _ _) ?k ?s0] =>
      destruct (send_command_run w mqtt_client command_name command_data s0 Hclient)
        as (logs & more & r & s1 & Hsend & Hlogs & Hmore & Htrace & Hr & _ & Hclient1);
      assert (Hk : forall b, respects (within replaying) (k b))
        by (intros b; frame)
  end.
  cbn [trace reads connected] in Htrace.
  exists logs.
  destruct r as [b | e].
  - rewrite (bind_ok _ _ _ _ _ Hsend).
    destruct (Hk b s1) as [[evs [Hevs _]] _].
    exists (more ++ evs)%list. split; [exact Hlogs | ].
    rewrite Hevs, Htrace. unfold attempt, envelope, header, preview.
    rewrite <- !app_assoc. reflexivity.
  - rewrite (bind_raise _ _ _ _ _ Hsend). cbn [snd].
    exists more. split; [exact Hlogs | ].
    rewrite Htrace. unfold attempt, envelope, header, preview.
    rewrite <- !app_assoc. reflexivity.
Qed.

(** After a failed publish, and an answer other than the quit token, the
    loop goes on with the next command. *)
Lemma failed_turn_goes_on w mqtt_client total i command_name command_data rest s text :
  client s = Some PahoClient ->
  (i < total)%nat ->
  publish_fails (publish w (publishes s)) ->
  input w (inputs s) = Line text ->
  lower (strip text) <> "q" ->
  exists sent s2,
    for_commands w mqtt_client total i ((command_name, command_data) :: rest) s =
    for_commands w mqtt_client total (S i) rest s2
    /\ trace s2 =
       (trace s
        ++ [Print (header i total command_name); Print (preview command_data)]
        ++ sent
        ++ [Log WARNING ("Failed to send command '" ++ command_name ++ "'")%string;
            Input prompt])%list
    /\ forallb is_log_or_publish sent = true
    /\ client s2 = Some PahoClient.
Proof.
  intros Hclient Hlt Hfails Hinput Hanswer. rewrite for_commands_cons.
  unfold bind at 1, emit at 1, modify at 1. unfold bind at 1, emit at 1, modify at 1.
  match goal with
  | |- context [bind (send_command _ _ _ _) ?k ?s0] =>
      destruct (send_command_run w mqtt_client command_name command_data s0 Hclient)
        as (logs & more & r & s1 & Hsend & Hlogs & Hmore & Htrace & Hr & Hinputs1 & Hclient1)
  end.
  cbn [trace reads connected publishes inputs client] in *.
  rewrite (send_result_fails _ Hfails) in Hr.
  assert (Hfalse : r = Ok false) by (rewrite Hr; now destruct (flag_after _ _)).
  clear Hr. subst r. rewrite (bind_ok _ _ _ _ _ Hsend).
  apply Nat.ltb_lt in Hlt. rewrite Hlt.
  apply String.eqb_neq in Hanswer.
  unfold get_user_confirmation, do_input. run.
  rewrite Hinputs1, Hinput. run. rewrite Hanswer. cbn [negb].
  exists (logs ++ attempt (flag_after (callbacks w (reads s)) (connected s))
                           (mqtt_topic mqtt_client) command_data :: more)%list.
  eexists. split; [reflexivity | ].
  cbn [trace client]. rewrite Htrace, Hclient1.
  split; [ | split; [ | exact Hclient]].
  - unfold header, preview, prompt, attempt, envelope.
    rewrite <- !app_assoc. reflexivity.
  - rewrite forallb_app. unfold attempt. cbn [forallb].
    rewrite (forallb_weaken is_log is_log_or_publish logs),
            (forallb_weaken is_log is_log_or_publish more); trivial;
      try (intros e He; unfold is_log_or_publish; now rewrite He).
    now destruct (flag_after _ _).
Qed.

(** C7: at any command but the last, with the client in place, when the
    publish of the command fails (a return code other than success, or an
    exception) and the operator's answer is not the quit token, the runner
    logs the warning, prompts, and goes on with the next command: it
    prints its two lines and makes its attempt, the publish of the next
    envelope when [self.connected] is still set. *)
Theorem publish_failure_does_not_abort
    w mqtt_client total i command_name command_data next_name next_data rest s text :
  client s = Some PahoClient ->
  (i < total)%nat ->
  publish_fails (publish w (publishes s)) ->
  input w (inputs s) = Line text ->
  lower (strip text) <> "q" ->
  exists sent s2 logs after,
    for_commands w mqtt_client total i
      ((command_name, command_data) :: (next_name, next_data) :: rest) s =
    for_commands w mqtt_client total (S i) ((next_name, next_data) :: rest) s2
    /\ trace s2 =
       (trace s
        ++ [Print (header i total command_name); Print (preview command_data)]
        ++ sent
        ++ [Log WARNING ("Failed to send command '" ++ command_name ++ "'")%string;
            Input prompt])%list
    /\ forallb is_log_or_publish sent = true
    /\ forallb is_log logs = true
    /\ trace (snd (for_commands w mqtt_client total i
                     ((command_name, command_data) :: (next_name, next_data) :: rest)
                     s)) =
       (trace s2
        ++ [Print (header (S i) total next_name); Print (preview next_data)]
        ++ logs
        ++ attempt (flag_after (callbacks w (reads s2)) (connected s2))
                   (mqtt_topic mqtt_client) next_data
           :: after)%list.
Proof.
  intros Hclient Hlt Hfails Hinput Hanswer.
  destruct (failed_turn_goes_on w mqtt_client total i command_name command_data
              ((next_name, next_data) :: rest) s text
              Hclient Hlt Hfails Hinput Hanswer)
    as (sent & s2 & Hgoes & Htrace & Hsent & Hclient2).
  destruct (turn_starts_with_attempt w mqtt_client total (S i)
              next_name next_data rest s2 Hclient2)
    as (logs & after & Hlogs & Hnext).
  exists sent, s2, logs, after.
  rewrite Hgoes. auto.
Qed.

Lemma publish_failure_does_not_abort_witness :
  let w := {| file := FileNotFound;
              client_connect := None;
              callbacks := fun _ => [];
              publish := fun n => match n with
                                  | O => PublishRaises (Exception "broker gone")
                                  | _ => Published 0
                                  end;
              input := fun _ => Line "" |} in
  let self := {| mqtt_host := "localhost"; mqtt_port := 1883;
                 mqtt_topic := "smartir/send_command";
                 mqtt_username := None; mqtt_password := None |} in
  let s := {| trace := []; reads := 0; publishes := 0; inputs := 0;
              client := Some PahoClient; connected := true |} in
  exists sent s2 logs after,
    for_commands w self 2 1 [("a.b", "X1"); ("a.c", "X2")] s =
    for_commands w self 2 2 [("a.c", "X2")] s2
    /\ trace s2 =
       (trace s
        ++ [Print (header 1 2 "a.b"); Print (preview "X1")]
        ++ sent
        ++ [Log WARNING "Failed to send command 'a.b'"; Input prompt])%list
    /\ forallb is_log_or_publish sent = true
    /\ forallb is_log logs = true
    /\ trace (snd (for_commands w self 2 1 [("a.b", "X1"); ("a.c", "X2")] s)) =
       (trace s2
        ++ [Print (header 2 2 "a.c"); Print (preview "X2")]
        ++ logs
        ++ attempt (flag_after (callbacks w (reads s2)) (connected s2))
                   (mqtt_topic self) "X2"
           :: after)%list.
Proof.
  intros w self s.
  apply (publish_failure_does_not_abort w self 2 1 "a.b" "X1" "a.c" "X2" [] s "").
  - reflexivity.
  - lia.
  - reflexivity.
  - reflexivity.
  - vm_compute. discriminate.
Defined.

(** *** Teardown *)

(** Once [connect] has run, the tester holds a client. *)
Lemma connect_client w self s :
  client (snd (connect w self s)) = Some PahoClient.
Proof.
  unfold connect, try_except.
  unfold bind at 1, emit at 1, modify at 1.
  unfold bind at 1, set_client at 1, modify at 1.
  match goal with
  | |- context [let (_, _) := ?rest ?s0 in _] =>
      assert (Hrest : respects (within with_client) rest) by frame;
      specialize (Hrest s0); destruct (rest s0) as [[ok | e] s1]
  end;
  destruct Hrest as (_ & Hclient & _); cbn [snd client] in Hclient;
  specialize (Hclient eq_refl).
  - exact Hclient.
  - destruct (is_Exception e); [run | ]; exact Hclient.
Qed.

Lemma count_app p a b : count p (a ++ b)%list = (count p a + count p b)%nat.
Proof. unfold count. now rewrite filter_app, length_app. Qed.

Lemma count_none p q l :
  (forall x, q x = true -> p x = false) ->
  forallb q l = true -> count p l = 0%nat.
Proof. intros Hpq Hl. unfold count. now rewrite (filter_none p q l Hpq Hl). Qed.

(** The replay ends with the teardown, and has none before. *)
Lemma main_replay_teardown w mqtt_client all_commands s :
  client s = Some PahoClient ->
  exists body,
    trace (snd (main_replay w mqtt_client all_commands s)) =
    (trace s ++ body
     ++ [LoopStop; Disconnect; Log INFO "Disconnected from MQTT broker"])%list
    /\ forallb (events replaying) body = true.
Proof.
  intros Hclient. unfold main_replay, try_finally.
  match goal with
  | |- context [let (_, _) := ?body ?s0 in _] =>
      assert (Hbody : respects (within replaying) body) by frame;
      specialize (Hbody s0); destruct (body s0) as [r s1]
  end.
  destruct Hbody as ((body & Htrace & Hevents) & Hclient1 & _).
  cbn [snd] in *. specialize (Hclient1 eq_refl).
  exists body. split; [ | exact Hevents].
  unfold disconnect. run. rewrite Hclient1, Hclient. run.
  rewrite Htrace, <- !app_assoc. reflexivity.
Qed.

Lemma filter_publish_logs logs :
  forallb is_log logs = true -> filter is_publish logs = [].
Proof. apply filter_none. now intros []. Qed.

(** When the answer to the first prompt is the quit token, the only
    publish of the replay is the attempt of the first command. *)
Lemma main_replay_quit w mqtt_client name data second rest s text :
  client s = Some PahoClient ->
  input w (inputs s) = Line text ->
  lower (strip text) = "q" ->
  filter is_publish
    (trace (snd (main_replay w mqtt_client ((name, data) :: second :: rest) s))) =
  (filter is_publish (trace s)
   ++ filter is_publish
        [attempt (flag_after (callbacks w (reads s)) (connected s))
                 (mqtt_topic mqtt_client) data])%list.
Proof.
  intros Hclient Hinput Hquit.
  unfold main_replay. rewrite for_commands_cons.
  match goal with
  | |- context [Nat.ltb 1 ?total] => change (Nat.ltb 1 total) with true
  end.
  unfold disconnect, get_user_confirmation, do_input. run.
  match goal with
  | |- context [send_command w mqtt_client name data ?s0] =>
      destruct (send_command_run w mqtt_client name data s0 Hclient)
        as (logs & more & r & s1 & Hsend & Hlogs & Hmore & Htrace & _ & Hinputs1 & Hclient1)
  end.
  cbn [trace reads connected publishes inputs client] in *.
  assert (Hpublishes :
            filter is_publish (trace s1) =
            (filter is_publish (trace s)
             ++ filter is_publish
                  [attempt (flag_after (callbacks w (reads s)) (connected s))
                           (mqtt_topic mqtt_client) data])%list).
  { rewrite Htrace, !filter_app. cbn [filter is_publish app].
    rewrite (filter_publish_logs _ Hlogs). cbn [app].
    rewrite !app_nil_r. f_equal. unfold attempt, envelope.
    destruct (flag_after _ _); cbn [filter is_publish];
      now rewrite (filter_publish_logs _ Hmore). }
  rewrite Hsend.
  destruct r as [[ | ] | e]; run.
  - rewrite Hinputs1, Hinput, Hquit. cbn [String.eqb Ascii.eqb Bool.eqb]. run.
    rewrite Hclient1, Hclient. run.
    rewrite !filter_app. cbn [filter is_publish].
    now rewrite Hpublishes, !app_nil_r.
  - rewrite Hinputs1, Hinput, Hquit. cbn [String.eqb Ascii.eqb Bool.eqb]. run.
    rewrite Hclient1, Hclient. run.
    rewrite !filter_app. cbn [filter is_publish].
    now rewrite Hpublishes, !app_nil_r.
  - destruct e; cbn [is_Exception]; run; rewrite Hclient1, Hclient; run;
      rewrite ?filter_app; cbn [filter is_publish];
      now rewrite Hpublishes, ?app_nil_r.
Qed.

(** C8: when the setup has succeeded and [connect] has returned [True],
    the trace of the run, however the replay ends (to its end, on the
    operator's quit, on an interruption or an exception raised by a
    publish or a prompt), has exactly one stop of the network loop and
    exactly one disconnect, in this order at its end; and when the answer
    to the first prompt of a run of two commands or more is the quit
    token, no command after the first is published. *)
Theorem teardown_exactly_once w cfg mqtt_client all_commands s1 s2 :
  main_setup w cfg initial = (Ok (mqtt_client, all_commands), s1) ->
  connect w mqtt_client s1 = (Ok true, s2) ->
  count is_loop_stop (trace (snd (main w cfg initial))) = 1%nat
  /\ count is_disconnect (trace (snd (main w cfg initial))) = 1%nat
  /\ (exists before,
        trace (snd (main w cfg initial)) =
        (before
         ++ [LoopStop; Disconnect; Log INFO "Disconnected from MQTT broker"])%list)
  /\ (forall name data second rest text,
        all_commands = (name, data) :: second :: rest ->
        input w 0 = Line text ->
        lower (strip text) = "q" ->
        filter is_publish (trace (snd (main w cfg initial))) =
        filter is_publish
          [attempt (flag_after (callbacks w (reads s2)) (connected s2))
                   (mqtt_topic mqtt_client) data]
        /\ (count is_publish (trace (snd (main w cfg initial))) <= 1)%nat).
Proof.
  intros Hsetup Hconnect.
  destruct (main_setup_ok _ _ _ _ _ Hsetup)
    as (_ & Hlogs & _ & _ & _ & Hinputs1 & _).
  pose proof (connect_frame w mqtt_client s1) as Hframe.
  pose proof (connect_client w mqtt_client s1) as Hclient.
  rewrite Hconnect in Hframe, Hclient. cbn [snd] in Hframe, Hclient.
  destruct Hframe as ((evs & Htrace2 & Hevs) & _ & Hinputs2 & _).
  specialize (Hinputs2 eq_refl).
  assert (Hmain : main w cfg initial = main_replay w mqtt_client all_commands s2).
  { unfold main. rewrite (bind_ok _ _ _ _ _ Hsetup). cbn [fst snd].
    now rewrite (bind_ok _ _ _ _ _ Hconnect). }
  rewrite Hmain.
  destruct (main_replay_teardown w mqtt_client all_commands s2 Hclient)
    as (body & Htrace & Hbody).
  assert (Hquiet : forall p,
            (forall e, p e = true -> is_teardown e = true) ->
            count p (trace s2 ++ body)%list = 0%nat).
  { intros p Hp. rewrite Htrace2, !count_app.
    assert (H1 : count p (trace s1) = 0%nat).
    { apply (count_none p is_log); [ | exact Hlogs].
      intros e He. destruct (p e) eqn:Hpe; [ | reflexivity].
      apply Hp in Hpe. destruct e; discriminate. }
    assert (H2 : count p evs = 0%nat).
    { apply (count_none p (events connecting)); [ | exact Hevs].
      intros e He. cbn in He. destruct (p e) eqn:Hpe; [ | reflexivity].
      rewrite (Hp e Hpe), !orb_true_r in He. discriminate He. }
    assert (H3 : count p body = 0%nat).
    { apply (count_none p (events replaying)); [ | exact Hbody].
      intros e He. cbn in He. destruct (p e) eqn:Hpe; [ | reflexivity].
      rewrite (Hp e Hpe) in He. discriminate He. }
    now rewrite H1, H2, H3. }
  repeat split.
  - rewrite Htrace, app_assoc, count_app, Hquiet; [reflexivity | ].
    intros e He. unfold is_teardown. now rewrite He.
  - rewrite Htrace, app_assoc, count_app, Hquiet; [reflexivity | ].
    intros e He. unfold is_teardown. rewrite He. apply orb_true_r.
  - exists (trace s2 ++ body)%list. now rewrite Htrace, app_assoc.
  - subst all_commands.
    rewrite (main_replay_quit w mqtt_client name data second rest s2 text);
      trivial; [ | now rewrite Hinputs2, Hinputs1].
    rewrite Htrace2, filter_app, (filter_publish_logs _ Hlogs).
    rewrite (filter_none is_publish (events connecting) evs); trivial.
    intros e He. cbn in He. destruct (is_publish e); [discriminate He | reflexivity].
  - subst all_commands. unfold count.
    rewrite (main_replay_quit w mqtt_client name data second rest s2 text);
      trivial; [ | now rewrite Hinputs2, Hinputs1].
    rewrite Htrace2, filter_app, (filter_publish_logs _ Hlogs).
    rewrite (filter_none is_publish (events connecting) evs); trivial.
    + unfold attempt. destruct (flag_after _ _); cbn; lia.
    + intros e He. cbn in He. destruct (is_publish e); [discriminate He | reflexivity].
Qed.

Lemma teardown_exactly_once_witness :
  let w := {| file := Loaded (VDict [("commands",
                                      VDict [("on", VStr "X1");
                                             ("off", VStr "X2");
                                             ("swing", VStr "X3")])]);
              client_connect := None;
              callbacks := fun n => match n with
                                    | 3%nat => [OnConnect 0]
                                    | _ => []
                                    end;
              publish := fun _ => Published 0;
              input := fun _ => Line " Q " |} in
  let cfg := {| cfg_host := "localhost"; cfg_port := 1883;
                cfg_topic := "smartir/send_command"; cfg_username := None;
                cfg_password := None;
                commands_file := "codes/climate/toshiba.json" |} in
  count is_loop_stop (trace (snd (main w cfg initial))) = 1%nat
  /\ count is_disconnect (trace (snd (main w cfg initial))) = 1%nat
  /\ filter is_publish (trace (snd (main w cfg initial))) =
     [Publish "smartir/send_command" (envelope "X1")].
Proof.
  intros w cfg.
  eassert (Hsetup : main_setup w cfg initial = (Ok (_, _), _))
    by (lazy; reflexivity).
  match type of Hsetup with
  | _ = (Ok (?mqtt_client, _), ?s1) =>
      assert (Hconnect : connect w mqtt_client s1 =
                         (Ok true, snd (connect w mqtt_client s1)))
        by (vm_compute; reflexivity)
  end.
  destruct (teardown_exactly_once w cfg _ _ _ _ Hsetup Hconnect)
    as (Hstop & Hdisconnect & _ & Hquit).
  split; [exact Hstop | split; [exact Hdisconnect | ]].
  destruct (Hquit "on" "X1" ("off", "X2") [("swing", "X3")] " Q "
                  eq_refl eq_refl eq_refl) as [Hpublishes _].
  rewrite Hpublishes. vm_compute. reflexivity.
Defined.

End RunnerProperties.

(* ================================================================= *)
(** ** Further properties of the flattening *)

Section FlattenMore.

(** X1: Flattening only appends to the commands collected so far, and the
    commands of a mapping are those of its first entries followed by those
    of its last entries. *)
Theorem flatten_append_only :
  (forall obj path acc,
      extract_recursive obj path acc =
      (acc ++ extract_recursive obj path [])%list)
  /\ (forall before after,
        extract_all_commands (VDict (before ++ after)) =
        (extract_all_commands (VDict before)
         ++ extract_all_commands (VDict after))%list).
Proof.
  split.
  - intros obj path acc.
    now rewrite (extract_recursive_leaves obj path acc),
                (extract_recursive_leaves obj path []).
  - intros before after.
    now rewrite !extract_all_commands_leaves, leaves_dict_app, map_app.
Qed.

Lemma leaves_keys_nonempty obj :
  Forall (fun l => fst l <> []) (leaves obj).
Proof.
  induction obj as [ | b | z | q | s | l _ | items IH ] using pyvalue_ind;
    try constructor.
  induction IH as [ | [key value] rest _ _ IHrest ]; [constructor | ].
  rewrite leaves_dict_cons. apply Forall_app. split; [ | exact IHrest].
  destruct value; unfold entry_leaves;
    try (apply Forall_map, Forall_forall; intros; discriminate).
  repeat constructor. discriminate.
Qed.

Lemma dot_join_cons key keys :
  keys <> [] -> dot_join (key :: keys) = key ++ "." ++ dot_join keys.
Proof. destruct keys; [congruence | reflexivity]. Qed.

(** X2: Below a non-empty key every path is the key, a dot, and the path the
    inner mapping gives on its own, as long as the inner mapping has no
    empty key. *)
Theorem flatten_nested_prefix key items :
  str_truthy key = true ->
  keys_nonempty (VDict items) = true ->
  extract_all_commands (VDict [(key, VDict items)]) =
  map (fun c => (key ++ "." ++ fst c, snd c))
      (extract_all_commands (VDict items)).
Proof.
  intros Hkey Hkeys.
  rewrite !extract_all_commands_leaves, leaves_dict_cons.
  change (leaves (VDict [])) with (@nil (list str * str)).
  rewrite app_nil_r. unfold entry_leaves. rewrite !map_map.
  apply map_ext_in. intros [keys s] Hin. cbn [fst snd drop_empty].
  rewrite Hkey.
  pose proof (keys_nonempty_leaves _ Hkeys) as Hdrop.
  pose proof (leaves_keys_nonempty (VDict items)) as Hne.
  rewrite Forall_forall in Hdrop, Hne.
  rewrite (Hdrop _ Hin : drop_empty keys = keys).
  now rewrite (dot_join_cons key keys (Hne _ Hin)).
Qed.

Lemma flatten_nested_prefix_witness :
  extract_all_commands (VDict [("cool", VDict [("low", VStr "X1");
                                               ("high", VStr "X2")])]) =
  [("cool.low", "X1"); ("cool.high", "X2")].
Proof.
  exact (flatten_nested_prefix "cool" [("low", VStr "X1"); ("high", VStr "X2")]
           eq_refl eq_refl).
Defined.

(** X3: An empty key leaves no mark on the paths: a mapping under the key
    [""] flattens as the mapping itself. *)
Theorem flatten_empty_key_transparent items :
  extract_all_commands (VDict [("", VDict items)]) =
  extract_all_commands (VDict items).
Proof.
  rewrite !extract_all_commands_leaves, leaves_dict_cons.
  change (leaves (VDict [])) with (@nil (list str * str)).
  rewrite app_nil_r. unfold entry_leaves. rewrite map_map.
  apply map_ext. intros [keys s]. reflexivity.
Qed.

Lemma dot_join_truthy key keys :
  str_truthy key = true -> str_truthy (dot_join (key :: keys)) = true.
Proof.
  intros Hkey. destruct keys; [exact Hkey | ].
  unfold dot_join. cbn [String.concat]. now apply str_truthy_app.
Qed.

(** X4: In a table without empty keys no command has an empty name. *)
Theorem flatten_names_nonempty table :
  keys_nonempty table = true ->
  Forall (fun c => str_truthy (fst c) = true) (extract_all_commands table).
Proof.
  intros Hkeys. rewrite extract_all_commands_leaves.
  apply Forall_map, Forall_forall. intros [keys s] Hin. cbn [fst].
  pose proof (keys_nonempty_leaves _ Hkeys) as Hdrop.
  pose proof (leaves_keys_nonempty table) as Hne.
  rewrite Forall_forall in Hdrop, Hne.
  specialize (Hdrop _ Hin). specialize (Hne _ Hin). cbn [fst] in *.
  destruct keys as [ | key keys]; [congruence | ].
  cbn [drop_empty] in Hdrop |- *.
  destruct (str_truthy key) eqn:Hkey.
  - now apply dot_join_truthy.
  - exfalso. clear Hne Hin.
    assert (Hlen : (List.length (drop_empty keys) <= List.length keys)%nat).
    { clear. induction keys as [ | k ks IH]; cbn; [lia | ].
      destruct (str_truthy k); cbn; lia. }
    rewrite Hdrop in Hlen. cbn in Hlen. lia.
Qed.

Lemma flatten_names_nonempty_witness :
  Forall (fun c => str_truthy (fst c) = true)
         (extract_all_commands (VDict [("a", VDict [("b", VStr "X1")])])).
Proof. apply flatten_names_nonempty. reflexivity. Defined.

End FlattenMore.

(* ================================================================= *)
(** ** Further properties of the runner *)

Section RunnerMore.

Import Runner.

(** *** The prompt *)

Lemma lower_char_q c :
  lower_char c = "q"%char -> c = "q"%char \/ c = "Q"%char.
Proof.
  destruct c as [[] [] [] [] [] [] [] []]; vm_compute; intros H;
    first [discriminate H | now left | now right].
Qed.

Lemma lower_q s : lower s = "q" <-> s = "q" \/ s = "Q".
Proof.
  split.
  - destruct s as [ | c [ | d s]]; cbn [lower]; intros H; try discriminate H.
    injection H as H. destruct (lower_char_q c H); subst; auto.
  - intros [H | H]; subst; reflexivity.
Qed.

Lemma quits_lower text :
  String.eqb (lower (strip text)) "q" = quits text.
Proof.
  unfold quits.
  destruct (String.eqb (lower (strip text)) "q") eqn:H.
  - apply String.eqb_eq, lower_q in H as [H | H]; rewrite H; reflexivity.
  - symmetry. apply orb_false_intro; apply String.eqb_neq; intros Heq;
      apply String.eqb_neq in H; apply H, lower_q; auto.
Qed.

Lemma get_user_confirmation_run w s :
  get_user_confirmation w s =
  (match input w (inputs s) with
   | Line text => Ok (negb (quits text))
   | InputRaises e => Raise e
   end,
   {| trace := (trace s ++ [Input prompt])%list; reads := reads s;
      publishes := publishes s; inputs := S (inputs s);
      client := client s; connected := connected s |}).
Proof.
  unfold get_user_confirmation, do_input. run.
  destruct (input w (inputs s)) as [text | e]; run; [ | reflexivity].
  now rewrite quits_lower.
Qed.

(** X5: [get_user_confirmation] issues one prompt and reads one line; it
    answers [False] exactly when the line, stripped of surrounding
    whitespace, is [q] or [Q], whatever surrounds it and in either case,
    and it lets an exception of [input] through. *)
Theorem get_user_confirmation_answer w s :
  let out := get_user_confirmation w s in
  (fst out = Ok false <->
   exists text, input w (inputs s) = Line text
                /\ (strip text = "q" \/ strip text = "Q"))
  /\ (forall e, fst out = Raise e <-> input w (inputs s) = InputRaises e)
  /\ trace (snd out) = (trace s ++ [Input prompt])%list
  /\ inputs (snd out) = S (inputs s).
Proof.
  intros out. subst out. rewrite get_user_confirmation_run. cbn [fst snd trace inputs].
  assert (Hquits : forall text,
             quits text = true <-> strip text = "q" \/ strip text = "Q").
  { intros text. unfold quits. rewrite orb_true_iff, !String.eqb_eq. tauto. }
  split; [split | split; [split | split; reflexivity]].
  - destruct (input w (inputs s)) as [text | e]; [ | discriminate].
    intros H. injection H as H. apply negb_false_iff in H.
    exists text. split; [reflexivity | now apply Hquits].
  - intros (text & Hinput & Hq). rewrite Hinput.
    apply Hquits in Hq. now rewrite Hq.
  - destruct (input w (inputs s)) as [text | e']; [discriminate | congruence].
  - intros H. now rewrite H.
Qed.

Lemma get_user_confirmation_answer_witness :
  let w := {| file := FileNotFound; client_connect := None;
              callbacks := fun _ => [];
              publish := fun _ => Published 0;
              input := fun _ => Line "  Q " |} in
  fst (get_user_confirmation w initial) = Ok false.
Proof.
  intros w.
  refine (proj2 (proj1 (get_user_confirmation_answer w initial)) _).
  exists "  Q ". split; [reflexivity | right; reflexivity].
Defined.

(** *** Sending *)

Lemma send_command_store w self command_name command_data s :
  client s = Some PahoClient ->
  connected (snd (send_command w self command_name command_data s)) =
  flag_after (callbacks w (reads s)) (connected s)
  /\ reads (snd (send_command w self command_name command_data s)) = S (reads s).
Proof.
  intros Hclient. unfold send_command.
  destruct (read_connected_run w s)
    as (logs & s1 & Hrun & Hflag1 & _ & _ & Hreads1 & Hclient1 & _).
  rewrite (bind_ok _ _ _ _ _ Hrun). rewrite <- Hflag1, <- Hreads1.
  destruct (connected s1) eqn:Hc; cbn [negb].
  - unfold do_publish. run. rewrite Hclient1, Hclient.
    destruct (publish w (publishes s1)) as [rc | e];
      [destruct (Z.eqb rc MQTT_ERR_SUCCESS) | destruct (is_Exception e)];
      run; auto.
  - run. auto.
Qed.

Lemma send_command_effect w self command_name command_data s :
  client s = Some PahoClient ->
  let flag := flag_after (callbacks w (reads s)) (connected s) in
  let out := send_command w self command_name command_data s in
  (forall e, fst out = Raise e ->
     is_Exception e = false
     /\ flag = true /\ publish w (publishes s) = PublishRaises e)
  /\ filter is_publish (trace (snd out)) =
     (filter is_publish (trace s)
      ++ (if flag then [Publish (mqtt_topic self) (envelope command_data)]
          else []))%list.
Proof.
  intros Hclient flag out.
  destruct (send_command_run w self command_name command_data s Hclient)
    as (logs & more & r & s' & Hsend & Hlogs & Hmore & Htrace & Hr & _).
  subst out. rewrite Hsend. cbn [fst snd]. fold flag in Htrace, Hr.
  subst r. split.
  - intros e H. destruct flag; [ | discriminate].
    destruct (publish w (publishes s)) as [rc | e']; cbn [send_result] in H;
      [discriminate | ].
    destruct (is_Exception e') eqn:He; [discriminate | ].
    injection H as H. subst e'. auto.
  - rewrite Htrace, !filter_app, (filter_publish_logs _ Hlogs).
    destruct flag; cbn [filter is_publish app];
      now rewrite (filter_publish_logs _ Hmore).
Qed.

(** X6: [send_command] answers [True] exactly when [self.connected] is set
    and the publish returns the success code; no exception that derives
    from [Exception] leaves it; and it publishes the envelope once when
    the flag is set, nothing otherwise. *)
Theorem send_command_outcome w self command_name command_data s :
  client s = Some PahoClient ->
  let flag := flag_after (callbacks w (reads s)) (connected s) in
  let out := send_command w self command_name command_data s in
  (fst out = Ok true <->
   flag = true /\ publish w (publishes s) = Published MQTT_ERR_SUCCESS)
  /\ (forall e, fst out = Raise e ->
        is_Exception e = false
        /\ flag = true /\ publish w (publishes s) = PublishRaises e)
  /\ filter is_publish (trace (snd out)) =
     (filter is_publish (trace s)
      ++ (if flag then [Publish (mqtt_topic self) (envelope command_data)]
          else []))%list.
Proof.
  intros Hclient flag out.
  destruct (send_command_run w self command_name command_data s Hclient)
    as (logs & more & r & s' & Hsend & Hlogs & Hmore & Htrace & Hr & _).
  split; [ | exact (send_command_effect w self command_name command_data s Hclient)].
  subst out. rewrite Hsend. cbn [fst snd]. fold flag in Htrace, Hr.
  subst r. split.
  - destruct flag; [ | discriminate].
    destruct (publish w (publishes s)) as [rc | e]; cbn [send_result].
    + intros H. injection H as H. apply Z.eqb_eq in H. now subst.
    + destruct (is_Exception e); discriminate.
  - intros [Hflag Hpub]. now rewrite Hflag, Hpub.
Qed.

Lemma send_command_outcome_witness :
  let w := {| file := FileNotFound; client_connect := None;
              callbacks := fun _ => [OnDisconnect 7];
              publish := fun _ => Published 0; input := fun _ => Line "" |} in
  let self := {| mqtt_host := "localhost"; mqtt_port := 1883;
                 mqtt_topic := "smartir/send_command";
                 mqtt_username := None; mqtt_password := None |} in
  let s := {| trace := []; reads := 0; publishes := 0; inputs := 0;
              client := Some PahoClient; connected := true |} in
  filter is_publish (trace (snd (send_command w self "on" "X1" s))) = [].
Proof.
  intros w self s.
  exact (proj2 (proj2 (send_command_outcome w self "on" "X1" s eq_refl))).
Defined.

(** *** Connecting *)

Lemma flag_after_kept cbs :
  existsb drops cbs = false -> flag_after cbs true = true.
Proof.
  induction cbs as [ | cb cbs IH]; [reflexivity | ].
  cbn [existsb]. intros H. apply orb_false_elim in H as [Hcb Hrest].
  unfold flag_after in *. cbn [fold_left].
  destruct cb as [rc | rc | mid]; try discriminate Hcb;
    try destruct (Z.eqb rc 0); now apply IH.
Qed.

(** The waiting loop does what [wait_outcome] computes. *)
Lemma wait_connected_outcome w n :
  forall timeout s,
    timeout * 2 == inject_Z (Z.of_nat n) ->
    exists evs s',
      wait_connected w timeout s = (Ok tt, s')
      /\ trace s' = (trace s ++ evs)%list
      /\ filter is_sleep evs =
         repeat (Sleep (1 # 2)) (fst (wait_outcome w (reads s) (connected s) n))
      /\ forallb is_log_or_sleep evs = true
      /\ connected s' = snd (wait_outcome w (reads s) (connected s) n)
      /\ reads s' =
         (reads s + S (fst (wait_outcome w (reads s) (connected s) n)))%nat.
Proof.
  assert (Hweak : forall logs, forallb is_log logs = true ->
                               forallb is_log_or_sleep logs = true).
  { intros logs. apply forallb_weaken. intros e He.
    unfold is_log_or_sleep. now rewrite He. }
  induction n as [ | n IH]; intros timeout s Htime;
    rewrite wait_connected_equation_1;
    destruct (read_connected_run w s)
      as (logs & s1 & Hrun & Hflag1 & Htrace1 & Hlogs1 & Hreads1 & _);
    rewrite (bind_ok _ _ _ _ _ Hrun); cbn [wait_outcome];
    rewrite <- Hflag1;
    destruct (connected s1) eqn:Hc; cbn [negb fst snd];
    try (exists logs, s1; repeat split; auto using filter_sleep_logs;
         rewrite Hreads1; lia);
    destruct (Qlt_le_dec 0 timeout) as [Hpos | Hle].
  - exfalso. change (inject_Z (Z.of_nat 0)) with 0 in Htime. lra.
  - exists logs, s1. repeat split; auto using filter_sleep_logs.
    rewrite Hreads1. lia.
  - rewrite inject_Z_succ in Htime.
    pose (s2 := {| trace := (trace s1 ++ [Sleep (1 # 2)])%list;
                   reads := reads s1; publishes := publishes s1;
                   inputs := inputs s1; client := client s1;
                   connected := connected s1 |}).
    destruct (IH (timeout - (1 # 2)) s2) as
      (evs & s' & Hwait & Htrace & Hsleeps & Hevs & Hflag' & Hreads');
      [lra | ].
    cbn [s2 reads connected] in Hsleeps, Hflag', Hreads'.
    rewrite Hc, Hreads1 in Hsleeps, Hflag', Hreads'.
    destruct (wait_outcome w (S (reads s)) false n) as [sleeps flag].
    cbn [fst snd] in *.
    exists (logs ++ Sleep (1 # 2) :: evs)%list, s'. repeat split.
    + exact Hwait.
    + rewrite Htrace. cbn [s2 trace]. rewrite Htrace1.
      rewrite <- !app_assoc. reflexivity.
    + rewrite filter_app, (filter_sleep_logs _ Hlogs1). cbn.
      now rewrite Hsleeps.
    + rewrite forallb_app. cbn. now rewrite Hevs, (Hweak _ Hlogs1).
    + exact Hflag'.
    + rewrite Hreads'. lia.
  - exfalso. rewrite inject_Z_succ in Htime.
    assert (0 <= inject_Z (Z.of_nat n)).
    { change 0 with (inject_Z 0). rewrite <- Zle_Qle. lia. }
    lra.
Qed.

Lemma wait_outcome_bound w n : forall r b, (fst (wait_outcome w r b n) <= n)%nat.
Proof.
  induction n as [ | n IH]; intros r b; cbn [wait_outcome];
    destruct (flag_after (callbacks w r) b); cbn [fst]; try lia.
  specialize (IH (S r) false).
  destruct (wait_outcome w (S r) false n) as [sleeps flag]. cbn [fst] in *. lia.
Qed.

Lemma wait_outcome_first w k :
  forall r n,
    (k <= n)%nat ->
    (forall j, (j < k)%nat -> existsb connack (callbacks w (r + j)) = false) ->
    flag_after (callbacks w (r + k)) false = true ->
    wait_outcome w r false n = (k, true).
Proof.
  induction k as [ | k IH]; intros r n Hle Hsilent Hfires.
  - rewrite Nat.add_0_r in Hfires.
    destruct n; cbn [wait_outcome]; now rewrite Hfires.
  - destruct n as [ | n]; [lia | ]. cbn [wait_outcome].
    rewrite flag_after_silent
      by (specialize (Hsilent 0%nat); rewrite Nat.add_0_r in Hsilent;
          apply Hsilent; lia).
    rewrite (IH (S r) n); [reflexivity | lia | | ].
    + intros j Hj. replace (S r + j)%nat with (r + S j)%nat by lia.
      apply Hsilent. lia.
    + now replace (S r + k)%nat with (r + S k)%nat by lia.
Qed.

(** [connect] when [client.connect] returns: the prefix, the network loop
    started, the wait, the last read of the flag, which is the answer. *)
Lemma connect_returns w self s :
  client_connect w = None ->
  exists evs logs s',
    connect w self s =
    (Ok (flag_after
           (callbacks w (reads s
                         + S (fst (wait_outcome w (reads s) (connected s) 20))))
           (snd (wait_outcome w (reads s) (connected s) 20))), s')
    /\ trace s' =
       (trace s ++ connect_prefix self ++ LoopStart :: evs ++ logs
        ++ (if flag_after
                 (callbacks w (reads s
                               + S (fst (wait_outcome w (reads s) (connected s) 20))))
                 (snd (wait_outcome w (reads s) (connected s) 20))
            then []
            else [Log ERROR "Failed to connect to MQTT broker within timeout"]))%list
    /\ filter is_sleep evs =
       repeat (Sleep (1 # 2)) (fst (wait_outcome w (reads s) (connected s) 20))
    /\ forallb is_log_or_sleep evs = true
    /\ forallb is_log logs = true
    /\ client s' = Some PahoClient
    /\ connected s' =
       flag_after
         (callbacks w (reads s
                       + S (fst (wait_outcome w (reads s) (connected s) 20))))
         (snd (wait_outcome w (reads s) (connected s) 20))
    /\ inputs s' = inputs s.
Proof.
  intros Hconnect.
  unfold connect, do_connect, connect_prefix, credentials. rewrite Hconnect.
  destruct (opt_truthy (mqtt_username self) && opt_truthy (mqtt_password self));
    run;
    match goal with
    | |- context [wait_connected w 10 ?s0] =>
        destruct (wait_connected_outcome w 20 10 s0)
          as (evs & s1 & Hwait & Htrace & Hsleeps & Hevs & Hflag1 & Hreads1);
          [ reflexivity | ];
        pose proof (wait_connected_frame w 10 s0) as Hframe
    end;
    rewrite Hwait in Hframe |- *;
    destruct Hframe as (_ & Hclient1 & Hinputs1 & _);
    specialize (Hclient1 eq_refl); specialize (Hinputs1 eq_refl);
    cbn [snd trace reads connected client inputs] in *;
    destruct (read_connected_run w s1)
      as (logs & s2 & Hrun & Hflag2 & Htrace2 & Hlogs2 & _ & Hclient2 & Hinputs2 & _);
    rewrite Hrun;
    rewrite Hflag1, Hreads1 in Hflag2; rewrite Hflag2;
    exists evs, logs;
    match goal with
    | |- context [if negb ?b then _ else _] => destruct b
    end; cbn [negb];
    eexists; (split; [reflexivity | ]); cbn [trace client connected inputs] in *;
    rewrite Htrace2, Htrace, <- ?app_assoc; cbn [app]; rewrite ?app_nil_r;
    repeat split; auto; congruence.
Qed.

(** [connect] when [client.connect] raises: an exception that derives from
    [Exception] is logged and answered by [False], any other goes on to
    the caller; the network loop is not started. *)
Lemma connect_raises w self s e :
  client_connect w = Some e ->
  connect w self s =
  (if is_Exception e then Ok false else Raise e,
   {| trace :=
        (trace s ++ connect_prefix self
         ++ (if is_Exception e
             then [Log ERROR ("MQTT connection error: " ++ exn_str e)%string]
             else []))%list;
      reads := reads s; publishes := publishes s; inputs := inputs s;
      client := Some PahoClient; connected := connected s |}).
Proof.
  intros Hconnect.
  unfold connect, do_connect, connect_prefix, credentials. rewrite Hconnect.
  destruct (opt_truthy (mqtt_username self) && opt_truthy (mqtt_password self));
    run; destruct (is_Exception e); run;
    rewrite <- ?app_assoc; cbn [app]; rewrite ?app_nil_r; reflexivity.
Qed.

Lemma filter_prefix p self :
  (forall l m, p (Log l m) = false) ->
  (forall h q k, p (Connect h q k) = false) ->
  filter p (connect_prefix self) =
  filter p (ClientNew :: credentials self).
Proof.
  intros Hlog Hconnect. unfold connect_prefix.
  rewrite !app_comm_cons, filter_app. cbn [filter].
  rewrite Hlog, Hconnect. apply app_nil_r.
Qed.

Lemma filter_quiet p evs :
  (forall l m, p (Log l m) = false) ->
  (forall q, p (Sleep q) = false) ->
  forallb is_log_or_sleep evs = true -> filter p evs = [].
Proof.
  intros Hlog Hsleep. apply filter_none.
  intros [] H; try discriminate H; auto.
Qed.

Lemma filter_logs p logs :
  (forall l m, p (Log l m) = false) ->
  forallb is_log logs = true -> filter p logs = [].
Proof.
  intros Hlog. apply filter_none. intros [] H; try discriminate H; auto.
Qed.

Lemma connect_keeps w self s p :
  (forall e, p e = true -> (is_publish e || is_input e || is_teardown e) = true) ->
  count p (trace (snd (connect w self s))) = count p (trace s).
Proof.
  intros Hp.
  pose proof (connect_frame w self s) as ((evs & Htrace & Hevs) & _).
  rewrite Htrace, count_app.
  rewrite (count_none p (events connecting) evs); [lia | | exact Hevs].
  intros e He. cbn in He. destruct (p e) eqn:Hpe; [ | reflexivity].
  rewrite (Hp e Hpe) in He. discriminate He.
Qed.

(** X7: Whatever the broker does, [connect] sleeps at most 20 times, publishes
    nothing, asks nothing, tears nothing down, and raises only what
    [client.connect] raised outside of [Exception]. *)
Theorem connect_bounded w self s :
  (count is_sleep (trace (snd (connect w self s)))
   <= count is_sleep (trace s) + 20)%nat
  /\ count is_publish (trace (snd (connect w self s))) = count is_publish (trace s)
  /\ count is_input (trace (snd (connect w self s))) = count is_input (trace s)
  /\ count is_teardown (trace (snd (connect w self s))) = count is_teardown (trace s)
  /\ (forall e, fst (connect w self s) = Raise e ->
        client_connect w = Some e /\ is_Exception e = false).
Proof.
  pose proof (connect_keeps w self s) as Hnone.
  split; [ | split; [ | split; [ | split]]].
  - destruct (client_connect w) as [e | ] eqn:Hconnect.
    + rewrite (connect_raises w self s e Hconnect). cbn [snd trace].
      unfold count. rewrite !filter_app, (filter_prefix is_sleep); auto.
      unfold credentials.
      destruct (_ && _); destruct (is_Exception e);
        cbn [filter is_sleep List.length app]; rewrite ?length_app;
        cbn [List.length]; lia.
    + destruct (connect_returns w self s Hconnect)
        as (sleeps & logs & s' & Hrun & Htrace' & Hsleeps & Hquiet & Hlogs & _).
      rewrite Hrun. cbn [snd]. rewrite Htrace'. unfold count.
      rewrite !filter_app, (filter_prefix is_sleep); auto.
      cbn [filter is_sleep]. rewrite !filter_app, Hsleeps.
      rewrite (filter_logs is_sleep logs); auto.
      rewrite !length_app, repeat_length.
      pose proof (wait_outcome_bound w 20 (reads s) (connected s)) as Hbound.
      destruct (wait_outcome w (reads s) (connected s) 20) as [sleeps' flag].
      cbn [fst snd] in *. unfold credentials.
      destruct (_ && _); destruct (flag_after _ _);
        cbn [filter is_sleep List.length app]; lia.
  - apply Hnone. intros e He. now rewrite He.
  - apply Hnone. intros e He. rewrite He. apply orb_true_iff. left. apply orb_true_r.
  - apply Hnone. intros e He. rewrite He. apply orb_true_r.
  - intros e Hraise. destruct (client_connect w) as [e' | ] eqn:Hconnect.
    + rewrite (connect_raises w self s e' Hconnect) in Hraise. cbn [fst] in Hraise.
      destruct (is_Exception e') eqn:He'; [discriminate Hraise | ].
      injection Hraise as Hraise. subst e'. auto.
    + destruct (connect_returns w self s Hconnect)
        as (sleeps & logs & s' & Hrun & _).
      rewrite Hrun in Hraise. discriminate Hraise.
Qed.

Lemma connect_bounded_witness :
  let w := {| file := FileNotFound;
              client_connect := Some KeyboardInterrupt;
              callbacks := fun _ => [OnConnect 0];
              publish := fun _ => Published 0;
              input := fun _ => Line "" |} in
  let self := {| mqtt_host := "localhost"; mqtt_port := 1883;
                 mqtt_topic := "smartir/send_command";
                 mqtt_username := None; mqtt_password := None |} in
  client_connect w = Some KeyboardInterrupt
  /\ is_Exception KeyboardInterrupt = false.
Proof.
  intros w self.
  refine (proj2 (proj2 (proj2 (proj2 (connect_bounded w self initial))))
            KeyboardInterrupt _).
  vm_compute. reflexivity.
Defined.

(** X8: When the connected-callback first fires with success between the
    [k]-th and the [k+1]-th poll, [k] at most 20, and no disconnect
    follows before the last read, [connect] answers [True] after exactly
    [k] sleeps. *)
Theorem connect_succeeds_after w self s k :
  client_connect w = None ->
  connected s = false ->
  (k <= 20)%nat ->
  (forall j, (j < k)%nat -> existsb connack (callbacks w (reads s + j)) = false) ->
  flag_after (callbacks w (reads s + k)) false = true ->
  existsb drops (callbacks w (reads s + S k)) = false ->
  fst (connect w self s) = Ok true
  /\ connected (snd (connect w self s)) = true
  /\ count is_sleep (trace (snd (connect w self s))) =
     (count is_sleep (trace s) + k)%nat.
Proof.
  intros Hconnect Hflag Hk Hsilent Hfires Hkept.
  destruct (connect_returns w self s Hconnect)
    as (sleeps & logs & s' & Hrun & Htrace & Hsleeps & Hquiet & Hlogs & _ & Hconnected & _).
  rewrite Hflag, (wait_outcome_first w k (reads s) 20 Hk Hsilent Hfires)
    in Hrun, Htrace, Hsleeps, Hconnected.
  cbn [fst snd] in Hrun, Htrace, Hsleeps, Hconnected.
  rewrite (flag_after_kept _ Hkept) in Hrun, Htrace, Hconnected.
  rewrite Hrun. cbn [fst snd]. repeat split; [exact Hconnected | ].
  rewrite Htrace. unfold count.
  rewrite !filter_app, (filter_prefix is_sleep); auto.
  cbn [filter is_sleep]. rewrite !filter_app, Hsleeps.
  rewrite (filter_logs is_sleep logs); auto.
  rewrite !length_app, repeat_length.
  unfold credentials.
  destruct (_ && _); cbn [filter is_sleep List.length app]; lia.
Qed.

Lemma connect_succeeds_after_witness :
  let w := {| file := FileNotFound; client_connect := None;
              callbacks := fun n => match n with
                                    | 0%nat => [OnConnect 5]
                                    | 2%nat => [OnPublish 1; OnConnect 0]
                                    | _ => []
                                    end;
              publish := fun _ => Published 0; input := fun _ => Line "" |} in
  let self := {| mqtt_host := "localhost"; mqtt_port := 1883;
                 mqtt_topic := "smartir/send_command";
                 mqtt_username := Some "ir"; mqtt_password := Some "" |} in
  fst (connect w self initial) = Ok true
  /\ connected (snd (connect w self initial)) = true
  /\ count is_sleep (trace (snd (connect w self initial))) =
     (count is_sleep (trace initial) + 2)%nat.
Proof.
  intros w self.
  refine (connect_succeeds_after w self initial 2 _ _ _ _ _ _).
  - reflexivity.
  - reflexivity.
  - lia.
  - intros [ | [ | j]] Hj; [reflexivity | reflexivity | lia].
  - reflexivity.
  - reflexivity.
Defined.

(** X9: [connect] hands the credentials to the client exactly when a user
    name and a password are both given and both non-empty, once, whatever
    happens afterwards. *)
Theorem connect_credentials w self s :
  filter is_credentials (trace (snd (connect w self s))) =
  (filter is_credentials (trace s)
   ++ match mqtt_username self, mqtt_password self with
      | Some (String a u), Some (String b p) =>
          [UsernamePwSet (String a u) (String b p)]
      | _, _ => []
      end)%list.
Proof.
  assert (Hcred : filter is_credentials (ClientNew :: credentials self) =
                  match mqtt_username self, mqtt_password self with
                  | Some (String a u), Some (String b p) =>
                      [UsernamePwSet (String a u) (String b p)]
                  | _, _ => []
                  end).
  { unfold credentials.
    destruct (mqtt_username self) as [[ | a u] | ];
      destruct (mqtt_password self) as [[ | b p] | ]; reflexivity. }
  destruct (client_connect w) as [e | ] eqn:Hconnect.
  - rewrite (connect_raises w self s e Hconnect). cbn [snd trace].
    rewrite !filter_app, (filter_prefix is_credentials), Hcred; auto.
    destruct (is_Exception e); cbn [filter is_credentials];
      now rewrite app_nil_r.
  - destruct (connect_returns w self s Hconnect)
      as (sleeps & logs & s' & Hrun & Htrace & _ & Hquiet & Hlogs & _).
    rewrite Hrun. cbn [snd]. rewrite Htrace.
    rewrite !filter_app, (filter_prefix is_credentials), Hcred; auto.
    cbn [filter is_credentials]. rewrite !filter_app.
    rewrite (filter_quiet is_credentials sleeps),
            (filter_logs is_credentials logs); auto.
    destruct (flag_after _ _); cbn [filter is_credentials app];
      now rewrite app_nil_r.
Qed.

(** X10: When [client.connect] raises, the network loop is never started and
    nothing is torn down; [main] ends in [sys.exit(1)] when the exception
    derives from [Exception], and lets any other through. *)
Theorem main_connect_error w cfg mqtt_client all_commands s1 e :
  main_setup w cfg initial = (Ok (mqtt_client, all_commands), s1) ->
  client_connect w = Some e ->
  fst (main w cfg initial) =
    (if is_Exception e then Raise (SystemExit 1) else Raise e)
  /\ filter is_transport (trace (snd (main w cfg initial))) =
     ClientNew :: credentials mqtt_client
     ++ [Connect (cfg_host cfg) (cfg_port cfg) 60]
  /\ count is_sleep (trace (snd (main w cfg initial))) = 0%nat.
Proof.
  intros Hsetup Hconnect.
  destruct (main_setup_ok _ _ _ _ _ Hsetup) as (Hself & Hlogs & _).
  assert (Hhost : mqtt_host mqtt_client = cfg_host cfg) by now subst.
  assert (Hport : mqtt_port mqtt_client = cfg_port cfg) by now subst.
  unfold main. rewrite (bind_ok _ _ _ _ _ Hsetup). cbn [fst snd].
  pose proof (connect_raises w mqtt_client s1 e Hconnect) as Hrun.
  unfold count.
  destruct (is_Exception e);
    [rewrite (bind_ok _ _ _ _ _ Hrun) | rewrite (bind_raise _ _ _ _ _ Hrun)];
    run; rewrite ?filter_app;
    rewrite (filter_logs is_transport (trace s1)),
            (filter_logs is_sleep (trace s1)); auto;
    unfold connect_prefix; rewrite Hhost, Hport; unfold credentials;
    destruct (_ && _); cbn; auto.
Qed.

Lemma main_connect_error_witness :
  fst (main {| file := Loaded (VDict [("commands", VDict [("on", VStr "X1")])]);
               client_connect := Some (Exception "[Errno 111] Connection refused");
               callbacks := fun _ => [];
               publish := fun _ => Published 0;
               input := fun _ => Line "" |}
            {| cfg_host := "localhost"; cfg_port := 1883;
               cfg_topic := "smartir/send_command"; cfg_username := None;
               cfg_password := None;
               commands_file := "codes/climate/toshiba.json" |}
            initial) = Raise (SystemExit 1).
Proof.
  refine (proj1 (main_connect_error _ _ _ _ _
                   (Exception "[Errno 111] Connection refused") _ _)).
  - vm_compute. reflexivity.
  - reflexivity.
Defined.

(** X11: When [client.connect] returns and [connect] then answers [False], the
    run ends in [sys.exit(1)] with the network loop started once and never
    stopped, and without a disconnect. *)
Theorem main_gives_up_without_teardown w cfg mqtt_client all_commands s1 :
  main_setup w cfg initial = (Ok (mqtt_client, all_commands), s1) ->
  client_connect w = None ->
  fst (connect w mqtt_client s1) = Ok false ->
  fst (main w cfg initial) = Raise (SystemExit 1)
  /\ count is_loop_start (trace (snd (main w cfg initial))) = 1%nat
  /\ count is_teardown (trace (snd (main w cfg initial))) = 0%nat
  /\ client (snd (main w cfg initial)) = Some PahoClient.
Proof.
  intros Hsetup Hconnect Hfalse.
  destruct (main_setup_ok _ _ _ _ _ Hsetup) as (_ & Hlogs1 & _).
  destruct (connect_returns w mqtt_client s1 Hconnect)
    as (sleeps & logs & s2 & Hrun & Htrace & _ & Hquiet & Hlogs & Hclient & _).
  match type of Hrun with
  | _ = (Ok ?b, _) => set (flag := b) in *
  end.
  assert (Hflag : flag = false)
    by (rewrite Hrun in Hfalse; cbn [fst] in Hfalse; congruence).
  clearbody flag. subst flag.
  unfold main. rewrite (bind_ok _ _ _ _ _ Hsetup). cbn [fst snd].
  rewrite (bind_ok _ _ _ _ _ Hrun). run. rewrite Htrace. unfold count.
  rewrite !filter_app.
  rewrite (filter_logs is_loop_start (trace s1)),
          (filter_logs is_teardown (trace s1)),
          (filter_prefix is_loop_start), (filter_prefix is_teardown); auto.
  cbn [filter is_loop_start is_teardown is_loop_stop is_disconnect orb].
  rewrite !filter_app,
          (filter_quiet is_loop_start sleeps), (filter_quiet is_teardown sleeps),
          (filter_logs is_loop_start logs), (filter_logs is_teardown logs); auto.
  unfold credentials. destruct (_ && _); cbn; auto.
Qed.

Lemma main_gives_up_without_teardown_witness :
  let w := {| file := Loaded (VDict [("commands", VDict [("on", VStr "X1")])]);
              client_connect := None;
              callbacks := fun n => match n with
                                    | 4%nat => [OnConnect 0]
                                    | 5%nat => [OnDisconnect 1]
                                    | _ => []
                                    end;
              publish := fun _ => Published 0;
              input := fun _ => Line "" |} in
  let cfg := {| cfg_host := "localhost"; cfg_port := 1883;
                cfg_topic := "smartir/send_command"; cfg_username := None;
                cfg_password := None;
                commands_file := "codes/climate/toshiba.json" |} in
  fst (main w cfg initial) = Raise (SystemExit 1)
  /\ count is_loop_start (trace (snd (main w cfg initial))) = 1%nat
  /\ count is_teardown (trace (snd (main w cfg initial))) = 0%nat
  /\ client (snd (main w cfg initial)) = Some PahoClient.
Proof.
  intros w cfg.
  eassert (Hsetup : main_setup w cfg initial = (Ok (_, _), _))
    by (lazy; reflexivity).
  refine (main_gives_up_without_teardown w cfg _ _ _ Hsetup _ _).
  - reflexivity.
  - vm_compute. reflexivity.
Defined.

(** *** Loading *)

(** X12: When the commands file is missing, is not JSON or cannot be read, the
    run ends in [sys.exit(1)] after one error record, and no event touches
    the transport client. *)
Theorem load_failure_exits w cfg :
  (forall data, file w <> Loaded data) ->
  fst (main w cfg initial) = Raise (SystemExit 1)
  /\ filter is_transport (trace (snd (main w cfg initial))) = []
  /\ client (snd (main w cfg initial)) = None
  /\ count (fun e => match e with Log ERROR _ => true | _ => false end)
           (trace (snd (main w cfg initial))) = 1%nat.
Proof.
  intros Hfile. unfold main, main_setup, load_toshiba_commands.
  destruct (file w) as [ | msg | msg | data]; run; auto.
  now destruct (Hfile data).
Qed.

Lemma load_failure_exits_witness :
  fst (main {| file := JSONDecodeError "Expecting value: line 1 column 1 (char 0)";
               client_connect := None;
               callbacks := fun _ => [OnConnect 0];
               publish := fun _ => Published 0;
               input := fun _ => Line "" |}
            {| cfg_host := "localhost"; cfg_port := 1883;
               cfg_topic := "smartir/send_command"; cfg_username := None;
               cfg_password := None;
               commands_file := "codes/climate/toshiba.json" |}
            initial) = Raise (SystemExit 1).
Proof.
  refine (proj1 (load_failure_exits _ _ _)). intros data. discriminate.
Defined.

(** X13: When the commands file parses to anything but an object, [main] ends
    with an [AttributeError] that nothing catches, before any event
    touches the transport client. *)
Theorem load_non_object_crashes w cfg data :
  file w = Loaded data ->
  is_dict data = false ->
  fst (main w cfg initial) =
    Raise (AttributeError ("'" ++ type_name data
                           ++ "' object has no attribute 'get'"))
  /\ exit_status (fst (main w cfg initial)) = 1%Z
  /\ filter is_transport (trace (snd (main w cfg initial))) = []
  /\ client (snd (main w cfg initial)) = None.
Proof.
  intros Hfile Hdict. unfold main, main_setup, load_toshiba_commands, get_commands.
  rewrite Hfile. destruct data; try discriminate Hdict; run; auto.
Qed.

Lemma load_non_object_crashes_witness :
  let w := {| file := Loaded (VList [VDict [("commands", VDict [])]]);
              client_connect := None;
              callbacks := fun _ => [OnConnect 0];
              publish := fun _ => Published 0;
              input := fun _ => Line "" |} in
  let cfg := {| cfg_host := "localhost"; cfg_port := 1883;
                cfg_topic := "smartir/send_command"; cfg_username := None;
                cfg_password := None;
                commands_file := "codes/climate/toshiba.json" |} in
  exit_status (fst (main w cfg initial)) = 1%Z.
Proof.
  intros w cfg.
  exact (proj1 (proj2 (load_non_object_crashes w cfg
                         (VList [VDict [("commands", VDict [])]])
                         eq_refl eq_refl))).
Defined.

(** *** The replay, turn by turn *)

Ltac run_in H :=
  cbv beta iota zeta delta
    [bind ret raise get modify when try_except try_finally
     emit log set_client set_connected sys_exit init] in H;
  cbn [negb fst snd trace reads publishes inputs client connected] in H.

(** One turn of the loop, in full: what it publishes, how it leaves the
    flag and the client, and how it ends: by an exception of the publish,
    by going on without a prompt (the last command), by an exception of
    the prompt, by the quit token, or by going on after the prompt. *)
Lemma turn w self total i command_name command_data rest s :
  client s = Some PahoClient ->
  exists s1,
    ((exists e,
         for_commands w self total i ((command_name, command_data) :: rest) s =
         (Raise e, s1)
         /\ raised_by w e
         /\ count is_input (trace s1) = count is_input (trace s))
     \/ (for_commands w self total i ((command_name, command_data) :: rest) s =
         for_commands w self total (S i) rest s1
         /\ Nat.ltb i total = false
         /\ count is_input (trace s1) = count is_input (trace s))
     \/ (exists e,
           for_commands w self total i ((command_name, command_data) :: rest) s =
           (Raise e, s1)
           /\ raised_by w e
           /\ Nat.ltb i total = true
           /\ count is_input (trace s1) = S (count is_input (trace s)))
     \/ (exists text,
           for_commands w self total i ((command_name, command_data) :: rest) s =
           (Ok tt, s1)
           /\ input w (inputs s) = Line text /\ quits text = true
           /\ Nat.ltb i total = true
           /\ count is_input (trace s1) = S (count is_input (trace s)))
     \/ (exists text,
           for_commands w self total i ((command_name, command_data) :: rest) s =
           for_commands w self total (S i) rest s1
           /\ input w (inputs s) = Line text /\ quits text = false
           /\ Nat.ltb i total = true
           /\ count is_input (trace s1) = S (count is_input (trace s))))
    /\ filter is_publish (trace s1) =
       (filter is_publish (trace s)
        ++ (if flag_after (callbacks w (reads s)) (connected s)
            then [Publish (mqtt_topic self) (envelope command_data)]
            else []))%list
    /\ client s1 = Some PahoClient
    /\ connected s1 = flag_after (callbacks w (reads s)) (connected s).
Proof.
  intros Hclient.
  remember (for_commands w self total i ((command_name, command_data) :: rest) s)
    as out eqn:Hout.
  rewrite for_commands_cons in Hout.
  unfold bind at 1, emit at 1, modify at 1 in Hout.
  unfold bind at 1, emit at 1, modify at 1 in Hout.
  match type of Hout with
  | context [bind (send_command _ _ _ _) ?k ?s0] =>
      pose proof (send_command_effect w self command_name command_data s0 Hclient)
        as (Hraise & Hpublish);
      pose proof (send_command_store w self command_name command_data s0 Hclient)
        as (Hflag & _);
      pose proof (send_command_frame w self command_name command_data s0)
        as ((evs & Htrace & Hevs) & Hclient1 & Hinputs1 & _);
      destruct (send_command w self command_name command_data s0) as [r s1] eqn:Hsend
  end.
  specialize (Hclient1 eq_refl). specialize (Hinputs1 eq_refl).
  cbn [fst snd trace reads connected publishes inputs client]
    in Hraise, Hpublish, Hflag, Htrace, Hclient1, Hinputs1.
  rewrite !filter_app in Hpublish. cbn [filter is_publish app] in Hpublish.
  rewrite !app_nil_r in Hpublish.
  assert (Hcount : count is_input (trace s1) = count is_input (trace s)).
  { rewrite Htrace, !count_app.
    rewrite (count_none is_input is_log_or_publish evs); [cbn; lia | | exact Hevs].
    now intros []. }
  unfold count in *.
  destruct r as [success | e].
  - rewrite (bind_ok _ _ _ _ _ Hsend) in Hout.
    destruct (Nat.ltb i total) eqn:Hlt.
    + destruct success; run_in Hout; rewrite get_user_confirmation_run in Hout;
        cbn [inputs] in Hout; rewrite Hinputs1 in Hout;
        destruct (input w (inputs s)) as [text | e] eqn:Hinput;
        try destruct (quits text) eqn:Hquits; run_in Hout; subst out;
        eexists; (split; [ | split; [ | split]]);
        try (right; right; left; exists e;
             split; [reflexivity | split; [right; eauto | split; [reflexivity | ]]]);
        try (right; right; right; left; exists text;
             split; [reflexivity | repeat (split; [reflexivity | ])]);
        try (right; right; right; right; exists text;
             split; [reflexivity | repeat (split; [reflexivity | ])]);
        cbn [trace client connected];
        rewrite ?filter_app, ?length_app; cbn [filter is_input is_publish List.length];
        rewrite ?app_nil_r; repeat split; auto; try congruence; lia.
    + destruct success; run_in Hout; subst out;
        eexists; (split; [right; left; split; [reflexivity | split; [reflexivity | ]]
                         | split; [ | split]]);
        cbn [trace client connected];
        rewrite ?filter_app, ?length_app; cbn [filter is_input is_publish List.length];
        rewrite ?app_nil_r; auto; try congruence; lia.
  - rewrite (bind_raise _ _ _ _ _ Hsend) in Hout. subst out.
    destruct (Hraise e eq_refl) as (He & _ & Hworld).
    exists s1. split; [ | split; [ | split]]; auto; try congruence.
    left. exists e. split; [reflexivity | split; [ | exact Hcount]].
    left. eauto.
Qed.

Lemma for_commands_nil w self total i s :
  for_commands w self total i [] s = (Ok tt, s).
Proof. reflexivity. Qed.

(** An exception that leaves the loop was raised by a publish or by a
    prompt. *)
Lemma for_commands_raises w self total rest :
  forall i s e,
    client s = Some PahoClient ->
    fst (for_commands w self total i rest s) = Raise e -> raised_by w e.
Proof.
  unfold Command in *.
  induction rest as [ | [command_name command_data] rest IH];
    intros i s e Hclient Hraise; [discriminate Hraise | ].
  destruct (turn w self total i command_name command_data rest s Hclient)
    as (s1 & Hturn & _ & Hclient1 & _).
  destruct Hturn as [(e' & Hrun & Hworld & _)
                    | [(Hrun & _)
                    | [(e' & Hrun & Hworld & _)
                    | [(text & Hrun & _)
                    | (text & Hrun & _)]]]];
    rewrite Hrun in Hraise; cbn [fst] in Hraise;
    try (injection Hraise as Hraise; subst e'; exact Hworld);
    try discriminate Hraise;
    now apply (IH (S i) s1 e).
Qed.

(** For any world, the loop publishes at most once per command and
    prompts after every command but the last. *)
Lemma for_commands_bounds w self total rest :
  forall i s,
    client s = Some PahoClient ->
    (i + List.length rest = S total)%nat ->
    (count is_publish (trace (snd (for_commands w self total i rest s)))
     <= count is_publish (trace s) + List.length rest)%nat
    /\ (count is_input (trace (snd (for_commands w self total i rest s)))
        <= count is_input (trace s) + pred (List.length rest))%nat.
Proof.
  unfold Command in *.
  induction rest as [ | [command_name command_data] rest IH];
    intros i s Hclient Hlen; [cbn; lia | ].
  cbn [List.length] in *.
  destruct (turn w self total i command_name command_data rest s Hclient)
    as (s1 & Hturn & Hpublish & Hclient1 & _).
  assert (Hp : (count is_publish (trace s1) <= count is_publish (trace s) + 1)%nat).
  { unfold count. rewrite Hpublish, length_app.
    destruct (flag_after _ _); cbn; lia. }
  destruct Hturn as [(e' & Hrun & _ & Hin)
                    | [(Hrun & Hlt & Hin)
                    | [(e' & Hrun & _ & Hlt & Hin)
                    | [(text & Hrun & _ & _ & Hlt & Hin)
                    | (text & Hrun & _ & _ & Hlt & Hin)]]]];
    rewrite Hrun; cbn [snd];
    try first [apply Nat.ltb_lt in Hlt | apply Nat.ltb_ge in Hlt];
    try lia.
  - destruct rest; [ | cbn [List.length] in Hlen; lia].
    rewrite for_commands_nil. cbn [snd List.length]. lia.
  - destruct (IH (S i) s1 Hclient1) as (IHp & IHi); lia.
Qed.

(** The replay under [try]/[except]/[finally], from the outcome of its
    loop: what is caught, and the teardown as the only addition to the
    trace besides log records. *)
Lemma main_replay_outcome w mqtt_client all_commands s :
  fst (main_replay w mqtt_client all_commands s) =
    match fst (for_commands w mqtt_client (List.length all_commands) 1
                 all_commands s) with
    | Ok _ => Ok tt
    | Raise e => if caught_by_main e then Ok tt else Raise e
    end
  /\ forall p,
       (forall l m, p (Log l m) = false) ->
       p LoopStop = false -> p Disconnect = false ->
       filter p (trace (snd (main_replay w mqtt_client all_commands s))) =
       filter p (trace (snd (for_commands w mqtt_client (List.length all_commands)
                               1 all_commands s))).
Proof.
  unfold main_replay, disconnect. run.
  destruct (for_commands w mqtt_client (List.length all_commands) 1 all_commands s)
    as [[[] | e] s1]; cbn [fst snd].
  - destruct (client s1); run; split; auto; intros p Hlog Hstop Hdisc;
      rewrite !filter_app; cbn [filter]; rewrite ?Hlog, ?Hstop, ?Hdisc;
      now rewrite !app_nil_r.
  - destruct e; cbn [caught_by_main is_Exception]; run;
      destruct (client s1); run; split; auto; intros p Hlog Hstop Hdisc;
      rewrite ?filter_app; cbn [filter]; rewrite ?Hlog, ?Hstop, ?Hdisc;
      now rewrite ?app_nil_r.
Qed.

(** With the connection up and kept, no publish raising past
    [send_command], and every answer other than the quit token, the loop
    publishes the envelope of every command, in order, whatever the return
    codes, and prompts after each but the last. *)
Lemma for_commands_complete w self total rest :
  (forall k, existsb drops (callbacks w k) = false) ->
  (forall k e, publish w k = PublishRaises e -> is_Exception e = true) ->
  (forall k, exists text, input w k = Line text /\ quits text = false) ->
  forall i s,
    client s = Some PahoClient ->
    connected s = true ->
    (i + List.length rest = S total)%nat ->
    fst (for_commands w self total i rest s) = Ok tt
    /\ filter is_publish (trace (snd (for_commands w self total i rest s))) =
       (filter is_publish (trace s)
        ++ map (fun c => Publish (mqtt_topic self) (envelope (snd c))) rest)%list
    /\ count is_input (trace (snd (for_commands w self total i rest s))) =
       (count is_input (trace s) + pred (List.length rest))%nat.
Proof.
  intros Hkept Hpublish Hinput. unfold Command in *.
  assert (Hworld : forall e, ~ raised_by w e).
  { intros e [(n & Hn & He) | (n & Hn)].
    - rewrite (Hpublish n e Hn) in He. discriminate He.
    - destruct (Hinput n) as (text & Htext & _). congruence. }
  induction rest as [ | [command_name command_data] rest IH];
    intros i s Hclient Hflag Hlen.
  - cbn. rewrite app_nil_r. auto.
  - cbn [List.length map snd] in *.
    destruct (turn w self total i command_name command_data rest s Hclient)
      as (s1 & Hturn & Hpub & Hclient1 & Hflag1).
    rewrite Hflag, (flag_after_kept _ (Hkept _)) in Hpub, Hflag1.
    destruct Hturn as [(e' & Hrun & Hraised & _)
                      | [(Hrun & Hlt & Hin)
                      | [(e' & Hrun & Hraised & _)
                      | [(text & Hrun & Htext & Hquits & _)
                      | (text & Hrun & _ & _ & Hlt & Hin)]]]];
      try (now destruct (Hworld e' Hraised));
      try first [apply Nat.ltb_lt in Hlt | apply Nat.ltb_ge in Hlt].
    + destruct rest; [ | cbn [List.length] in Hlen; lia].
      rewrite Hrun, for_commands_nil. cbn [fst snd map List.length].
      rewrite Hpub, Hin. repeat split. lia.
    + destruct (Hinput (inputs s)) as (text' & Htext' & Hquits').
      congruence.
    + rewrite Hrun.
      destruct (IH (S i) s1 Hclient1 Hflag1) as (IHr & IHp & IHi); [lia | ].
      rewrite IHr, IHp, IHi, Hpub, Hin, <- app_assoc. repeat split. lia.
Qed.

(** X14: A complete run: the setup has succeeded, [connect] has answered
    [True], no disconnected-callback runs, no publish raises past
    [send_command], and the operator never quits.  Then [main] returns
    normally, the publishes of the run are the envelopes of the flattened
    commands, in order, to the configured topic, one each whatever the
    return codes, and there is one prompt less than commands. *)
Theorem replay_complete w cfg mqtt_client all_commands s1 s2 :
  main_setup w cfg initial = (Ok (mqtt_client, all_commands), s1) ->
  connect w mqtt_client s1 = (Ok true, s2) ->
  (forall k, existsb drops (callbacks w k) = false) ->
  (forall k e, publish w k = PublishRaises e -> is_Exception e = true) ->
  (forall k, exists text, input w k = Line text /\ quits text = false) ->
  fst (main w cfg initial) = Ok tt
  /\ filter is_publish (trace (snd (main w cfg initial))) =
     map (fun c => Publish (cfg_topic cfg) (envelope (snd c))) all_commands
  /\ count is_input (trace (snd (main w cfg initial))) =
     pred (List.length all_commands).
Proof.
  intros Hsetup Hconnect Hkept Hpublish Hinput.
  destruct (main_setup_ok _ _ _ _ _ Hsetup) as (Hself & Hlogs & _).
  assert (Htopic : mqtt_topic mqtt_client = cfg_topic cfg) by now subst.
  pose proof (connect_client w mqtt_client s1) as Hclient.
  assert (Hp : count is_publish (trace (snd (connect w mqtt_client s1))) =
               count is_publish (trace s1)).
  { apply connect_keeps. intros e He. now rewrite He. }
  assert (Hi : count is_input (trace (snd (connect w mqtt_client s1))) =
               count is_input (trace s1)).
  { apply connect_keeps. intros e He. rewrite He.
    apply orb_true_iff. left. apply orb_true_r. }
  assert (Hflag : connected s2 = true).
  { destruct (client_connect w) as [e | ] eqn:Hc.
    - rewrite (connect_raises w mqtt_client s1 e Hc) in Hconnect.
      destruct (is_Exception e); discriminate Hconnect.
    - destruct (connect_returns w mqtt_client s1 Hc)
        as (sleeps & logs & s' & Hrun & _ & _ & _ & _ & _ & Hconnected & _).
      rewrite Hrun in Hconnect. injection Hconnect as Hb Hs. subst s'.
      now rewrite Hconnected. }
  rewrite Hconnect in Hclient, Hp, Hi. cbn [snd] in Hclient, Hp, Hi.
  unfold count in Hp, Hi.
  rewrite (filter_logs is_publish (trace s1)) in Hp; auto.
  rewrite (filter_logs is_input (trace s1)) in Hi; auto.
  apply length_zero_iff_nil in Hp, Hi.
  assert (Hmain : main w cfg initial = main_replay w mqtt_client all_commands s2).
  { unfold main. rewrite (bind_ok _ _ _ _ _ Hsetup). cbn [fst snd].
    now rewrite (bind_ok _ _ _ _ _ Hconnect). }
  rewrite Hmain.
  destruct (main_replay_outcome w mqtt_client all_commands s2) as (Hr & Hfilter).
  destruct (for_commands_complete w mqtt_client (List.length all_commands)
              all_commands Hkept Hpublish Hinput 1%nat s2 Hclient Hflag eq_refl)
    as (Hok & Hpubs & Hins).
  rewrite Hok in Hr. unfold count in *.
  rewrite Hr, !Hfilter, Hpubs, Hins, Hp, Hi, Htopic; auto.
Qed.

Lemma replay_complete_witness :
  let w := {| file := Loaded (VDict [("commands",
                                      VDict [("on", VStr "X1");
                                             ("fan", VDict [("low", VStr "X2")])])]);
              client_connect := None;
              callbacks := fun n => match n with
                                    | 1%nat => [OnConnect 0]
                                    | _ => [OnPublish 1]
                                    end;
              publish := fun n => match n with
                                  | 0%nat => Published 4
                                  | _ => Published 0
                                  end;
              input := fun _ => Line "" |} in
  let cfg := {| cfg_host := "localhost"; cfg_port := 1883;
                cfg_topic := "smartir/send_command"; cfg_username := None;
                cfg_password := None;
                commands_file := "codes/climate/toshiba.json" |} in
  filter is_publish (trace (snd (main w cfg initial))) =
  [Publish "smartir/send_command" (envelope "X1");
   Publish "smartir/send_command" (envelope "X2")].
Proof.
  intros w cfg.
  eassert (Hsetup : main_setup w cfg initial = (Ok (_, _), _))
    by (lazy; reflexivity).
  match type of Hsetup with
  | _ = (Ok (?mqtt_client, _), ?s1) =>
      assert (Hconnect : connect w mqtt_client s1 =
                         (Ok true, snd (connect w mqtt_client s1)))
        by (vm_compute; reflexivity)
  end.
  refine (proj1 (proj2 (replay_complete w cfg _ _ _ _ Hsetup Hconnect _ _ _))).
  - intros [ | [ | k]]; reflexivity.
  - intros [ | k] e H; discriminate H.
  - intros k. exists "". split; reflexivity.
Defined.

(** X15: Whatever the world does, a run publishes at most once per flattened
    command and prompts at most once per command but the last: there is
    no retry, and no prompt after the last command. *)
Theorem replay_never_retries w cfg mqtt_client all_commands s1 :
  main_setup w cfg initial = (Ok (mqtt_client, all_commands), s1) ->
  (count is_publish (trace (snd (main w cfg initial)))
   <= List.length all_commands)%nat
  /\ (count is_input (trace (snd (main w cfg initial)))
      <= pred (List.length all_commands))%nat.
Proof.
  intros Hsetup.
  destruct (main_setup_ok _ _ _ _ _ Hsetup) as (_ & Hlogs & _).
  pose proof (connect_client w mqtt_client s1) as Hclient.
  assert (Hp : count is_publish (trace (snd (connect w mqtt_client s1))) =
               count is_publish (trace s1)).
  { apply connect_keeps. intros e He. now rewrite He. }
  assert (Hi : count is_input (trace (snd (connect w mqtt_client s1))) =
               count is_input (trace s1)).
  { apply connect_keeps. intros e He. rewrite He.
    apply orb_true_iff. left. apply orb_true_r. }
  unfold count in Hp, Hi.
  rewrite (filter_logs is_publish (trace s1)) in Hp; auto.
  rewrite (filter_logs is_input (trace s1)) in Hi; auto.
  unfold main. rewrite (bind_ok _ _ _ _ _ Hsetup). cbn [fst snd].
  destruct (connect w mqtt_client s1) as [[[ | ] | e] s2] eqn:Hconnect;
    cbn [snd List.length] in Hclient, Hp, Hi.
  - rewrite (bind_ok _ _ _ _ _ Hconnect).
    run.
    destruct (main_replay_outcome w mqtt_client all_commands s2) as (_ & Hfilter).
    destruct (for_commands_bounds w mqtt_client (List.length all_commands)
                all_commands 1%nat s2 Hclient eq_refl) as (Hbp & Hbi).
    unfold count in *. rewrite !Hfilter; auto. lia.
  - rewrite (bind_ok _ _ _ _ _ Hconnect). run. unfold count.
    rewrite !filter_app, !length_app. cbn. lia.
  - rewrite (bind_raise _ _ _ _ _ Hconnect). cbn [snd]. unfold count. lia.
Qed.

Lemma replay_never_retries_witness :
  let w := {| file := Loaded (VDict [("commands",
                                      VDict [("on", VStr "X1"); ("off", VStr "X2")])]);
              client_connect := None;
              callbacks := fun _ => [OnConnect 0];
              publish := fun _ => PublishRaises (Exception "payload too large");
              input := fun _ => InputRaises KeyboardInterrupt |} in
  let cfg := {| cfg_host := "localhost"; cfg_port := 1883;
                cfg_topic := "smartir/send_command"; cfg_username := None;
                cfg_password := None;
                commands_file := "codes/climate/toshiba.json" |} in
  (count is_publish (trace (snd (main w cfg initial))) <= 2)%nat
  /\ (count is_input (trace (snd (main w cfg initial))) <= 1)%nat.
Proof.
  intros w cfg.
  eassert (Hsetup : main_setup w cfg initial = (Ok (_, _), _))
    by (lazy; reflexivity).
  exact (replay_never_retries w cfg _ _ _ Hsetup).
Defined.

(** X16: Once connected, [main] returns normally, hence with exit status 0,
    whenever every exception a publish or a prompt raises is a
    [KeyboardInterrupt] or derives from [Exception]: an error during the
    replay does not show in the exit status. *)
Theorem replay_errors_exit_zero w cfg mqtt_client all_commands s1 s2 :
  main_setup w cfg initial = (Ok (mqtt_client, all_commands), s1) ->
  connect w mqtt_client s1 = (Ok true, s2) ->
  (forall e, raised_by w e -> caught_by_main e = true) ->
  fst (main w cfg initial) = Ok tt
  /\ exit_status (fst (main w cfg initial)) = 0%Z.
Proof.
  intros Hsetup Hconnect Hcaught.
  pose proof (connect_client w mqtt_client s1) as Hclient.
  rewrite Hconnect in Hclient. cbn [snd] in Hclient.
  assert (Hmain : main w cfg initial = main_replay w mqtt_client all_commands s2).
  { unfold main. rewrite (bind_ok _ _ _ _ _ Hsetup). cbn [fst snd].
    now rewrite (bind_ok _ _ _ _ _ Hconnect). }
  rewrite Hmain.
  destruct (main_replay_outcome w mqtt_client all_commands s2) as (Hr & _).
  assert (Hok : fst (main_replay w mqtt_client all_commands s2) = Ok tt).
  { rewrite Hr.
    destruct (fst (for_commands w mqtt_client (List.length all_commands) 1
                     all_commands s2)) as [[] | e] eqn:Hloop; [reflexivity | ].
    now rewrite (Hcaught e (for_commands_raises _ _ _ _ _ _ _ Hclient Hloop)). }
  now rewrite Hok.
Qed.

Lemma replay_errors_exit_zero_witness :
  let w := {| file := Loaded (VDict [("commands",
                                      VDict [("on", VStr "X1"); ("off", VStr "X2")])]);
              client_connect := None;
              callbacks := fun _ => [OnConnect 0];
              publish := fun _ => Published 0;
              input := fun _ => InputRaises (Exception "EOF when reading a line") |} in
  let cfg := {| cfg_host := "localhost"; cfg_port := 1883;
                cfg_topic := "smartir/send_command"; cfg_username := None;
                cfg_password := None;
                commands_file := "codes/climate/toshiba.json" |} in
  exit_status (fst (main w cfg initial)) = 0%Z.
Proof.
  intros w cfg.
  eassert (Hsetup : main_setup w cfg initial = (Ok (_, _), _))
    by (lazy; reflexivity).
  match type of Hsetup with
  | _ = (Ok (?mqtt_client, _), ?s1) =>
      assert (Hconnect : connect w mqtt_client s1 =
                         (Ok true, snd (connect w mqtt_client s1)))
        by (vm_compute; reflexivity)
  end.
  refine (proj2 (replay_errors_exit_zero w cfg _ _ _ _ Hsetup Hconnect _)).
  intros e [(n & Hn & _) | (n & Hn)]; [discriminate Hn | ].
  injection Hn as Hn. now subst e.
Defined.

Hint Resolve run_callback_frame network_thread_frame read_connected_frame
  wait_connected_frame do_connect_frame do_publish_frame send_command_frame
  get_user_confirmation_frame for_commands_frame load_toshiba_commands_frame
  : frame.

(** X17: A run that returns normally has got past [connect]: the setup
    succeeded and [connect] answered [True]. *)
Theorem normal_return_means_connected w cfg :
  fst (main w cfg initial) = Ok tt ->
  exists mqtt_client all_commands s1 s2,
    main_setup w cfg initial = (Ok (mqtt_client, all_commands), s1)
    /\ connect w mqtt_client s1 = (Ok true, s2)
    /\ client (snd (main w cfg initial)) = Some PahoClient.
Proof.
  unfold main.
  destruct (main_setup w cfg initial) as [[[mqtt_client all_commands] | e] s1]
    eqn:Hsetup.
  - rewrite (bind_ok _ _ _ _ _ Hsetup). cbn [fst snd].
    pose proof (connect_client w mqtt_client s1) as Hclient.
    destruct (connect w mqtt_client s1) as [[[ | ] | e] s2] eqn:Hconnect.
    + rewrite (bind_ok _ _ _ _ _ Hconnect). run. intros _.
      exists mqtt_client, all_commands, s1, s2.
      split; [reflexivity | split; [exact Hconnect | ]].
      cbn [snd] in Hclient.
      unfold main_replay, try_finally.
      match goal with
      | |- context [let (_, _) := ?body ?s0 in _] =>
          assert (Hbody : respects (within replaying) body) by frame;
          specialize (Hbody s0); destruct (body s0) as [r s3]
      end.
      destruct Hbody as (_ & Hkeep & _). cbn [snd] in Hkeep.
      specialize (Hkeep eq_refl).
      unfold disconnect. run. rewrite Hkeep, Hclient. run. congruence.
    + rewrite (bind_ok _ _ _ _ _ Hconnect). run. discriminate.
    + rewrite (bind_raise _ _ _ _ _ Hconnect). discriminate.
  - rewrite (bind_raise _ _ _ _ _ Hsetup). discriminate.
Qed.

Lemma normal_return_means_connected_witness :
  let w := {| file := Loaded (VDict [("commands", VDict [("on", VStr "X1")])]);
              client_connect := None;
              callbacks := fun _ => [OnConnect 0];
              publish := fun _ => PublishRaises KeyboardInterrupt;
              input := fun _ => Line "" |} in
  let cfg := {| cfg_host := "localhost"; cfg_port := 1883;
                cfg_topic := "smartir/send_command"; cfg_username := None;
                cfg_password := None;
                commands_file := "codes/climate/toshiba.json" |} in
  exists mqtt_client all_commands s1 s2,
    main_setup w cfg initial = (Ok (mqtt_client, all_commands), s1)
    /\ connect w mqtt_client s1 = (Ok true, s2)
    /\ client (snd (main w cfg initial)) = Some PahoClient.
Proof.
  intros w cfg. apply normal_return_means_connected.
  vm_compute. reflexivity.
Defined.

(** *** The callbacks *)

Lemma flag_after_app a b x :
  flag_after (a ++ b)%list x = flag_after b (flag_after a x).
Proof. unfold flag_after. apply fold_left_app. Qed.

Lemma flag_after_untouched cbs x :
  forallb leaves_flag cbs = true -> flag_after cbs x = x.
Proof.
  induction cbs as [ | cb cbs IH]; [reflexivity | ].
  cbn [forallb]. intros H. apply andb_prop in H as [Hcb Hrest].
  unfold flag_after in *. cbn [fold_left].
  destruct cb as [rc | rc | mid]; unfold leaves_flag in Hcb; cbn in Hcb;
    try discriminate Hcb; [ | now apply IH].
  rewrite orb_false_r in Hcb. apply negb_true_iff in Hcb. rewrite Hcb.
  now apply IH.
Qed.

(** X18: The callbacks never raise into the main thread and add only log
    records; [self.connected] ends as the last deciding callback leaves
    it: set by a connected-callback with return code 0, cleared by a
    disconnected-callback whatever its code, and unchanged when there is
    none (a connected-callback with another code and a published-callback
    decide nothing). *)
Theorem callbacks_decide_flag cbs cb others s :
  forallb leaves_flag others = true ->
  fst (network_thread (cbs ++ cb :: others) s) = Ok tt
  /\ connected (snd (network_thread (cbs ++ cb :: others) s)) =
     (if connack cb then true
      else if drops cb then false
      else connected (snd (network_thread cbs s)))
  /\ connected (snd (network_thread others s)) = connected s
  /\ filter (fun e => negb (is_log e))
            (trace (snd (network_thread (cbs ++ cb :: others) s))) =
     filter (fun e => negb (is_log e)) (trace s).
Proof.
  intros Hothers.
  destruct (network_thread_run (cbs ++ cb :: others) s) as (s1 & Hrun & Hflag).
  destruct (network_thread_run cbs s) as (s2 & Hrun2 & Hflag2).
  destruct (network_thread_run others s) as (s3 & Hrun3 & Hflag3).
  pose proof (network_thread_frame (cbs ++ cb :: others) s)
    as ((logs & Htrace & Hlogs) & _).
  rewrite Hrun in *. rewrite Hrun2, Hrun3. cbn [fst snd] in *.
  split; [reflexivity | split; [ | split]].
  - rewrite Hflag, Hflag2, flag_after_app.
    change (cb :: others) with ([cb] ++ others)%list.
    rewrite flag_after_app, (flag_after_untouched others _ Hothers).
    destruct cb as [rc | rc | mid]; cbn; try reflexivity;
      now destruct (Z.eqb rc 0).
  - now rewrite Hflag3, (flag_after_untouched others _ Hothers).
  - rewrite Htrace, filter_app.
    rewrite (filter_none (fun e => negb (is_log e)) is_log logs); auto.
    + apply app_nil_r.
    + intros e He. now rewrite He.
Qed.

Lemma callbacks_decide_flag_witness :
  connected
    (snd (network_thread
            ([OnConnect 0] ++ OnDisconnect 0 :: [OnConnect 5; OnPublish 3])
            initial)) = false.
Proof.
  exact (proj1 (proj2 (callbacks_decide_flag [OnConnect 0] (OnDisconnect 0)
                         [OnConnect 5; OnPublish 3] initial eq_refl))).
Defined.

End RunnerMore.

(* ================================================================= *)
(** ** The envelope *)

Section Envelope.

(** X19: The envelope determines the command: distinct commands are never
    published as the same payload. *)
Theorem envelope_injective p q : envelope p = envelope q -> p = q.
Proof.
  assert (Hshape : forall c,
            envelope c =
            ("{" ++ dquote ++ "ir_code_to_send" ++ dquote ++ ": " ++ dquote)
            ++ escape_chars c ++ dquote ++ "}").
  { intros c. unfold envelope, json_dumps, encode_basestring_ascii.
    cbn [map fst snd String.concat]. rewrite !string_app_assoc. reflexivity. }
  rewrite !Hshape. intros H. cbn [append dquote] in H.
  repeat (injection H as H).
  apply (f_equal read_string_body) in H.
  change (String "034" "}") with (dquote ++ "}") in H.
  rewrite !read_string_body_escape_chars in H. congruence.
Qed.

Lemma envelope_injective_witness :
  envelope "AABB" = envelope ("AA" ++ "BB") /\ "AABB" = "AA" ++ "BB".
Proof.
  split; [reflexivity | exact (envelope_injective "AABB" ("AA" ++ "BB") eq_refl)].
Defined.

(** X20: The runner publishes for a command what the UFO-R11 controller hands
    to the host as payload: the same envelope; the generic controller
    hands over the command itself, which is never an envelope. *)
Theorem runner_payload_is_vendor_payload w self command_name command_data s
    controller encoding controller_data delay hass :
  Runner.client s = Some Runner.PahoClient ->
  flag_after (Runner.callbacks w (Runner.reads s)) (Runner.connected s) = true ->
  exists payload,
    filter is_publish
      (Runner.trace (snd (Runner.send_command w self command_name command_data s))) =
    (filter is_publish (Runner.trace s)
     ++ [Runner.Publish (Runner.mqtt_topic self) payload])%list
    /\ Controller.calls
         (snd (Controller.send
                 {| Controller.cls := Controller.UFOR11Controller;
                    Controller._controller := controller;
                    Controller._encoding := encoding;
                    Controller._controller_data := controller_data;
                    Controller._delay := delay |} command_data hass)) =
       (Controller.calls hass
        ++ [{| Controller.domain := "mqtt"; Controller.service := "publish";
               Controller.service_data :=
                 [("topic", controller_data); ("payload", payload)] |}])%list
    /\ payload <> command_data.
Proof.
  intros Hclient Hflag. exists (envelope command_data).
  destruct (send_command_effect w self command_name command_data s Hclient)
    as (_ & Hpublish).
  rewrite Hflag in Hpublish. split; [exact Hpublish | split].
  - unfold Controller.send, Controller.async_call. cbn.
    now destruct (Controller.call_outcome hass _).
  - unfold envelope, json_dumps. intros H.
    apply (f_equal String.length) in H. revert H.
    cbn [map fst snd String.concat encode_basestring_ascii].
    assert (Happ : forall a b : str,
               String.length (a ++ b) = (String.length a + String.length b)%nat).
    { intros a b. induction a as [ | c a IH]; [reflexivity | ].
      cbn [append String.length]. now rewrite IH. }
    assert (Hlen : forall d : str,
               (String.length d <= String.length (escape_chars d))%nat).
    { intros d. induction d as [ | c t IH]; [cbn; lia | ].
      cbn [escape_chars]. rewrite Happ. cbn [String.length].
      assert (Nat.leb 1 (String.length (escape_char c)) = true)
        by (destruct c as [[] [] [] [] [] [] [] []]; vm_compute; reflexivity).
      apply Nat.leb_le in H. lia. }
    specialize (Hlen command_data).
    unfold encode_basestring_ascii. rewrite !Happ. cbn [String.length]. lia.
Qed.

Lemma runner_payload_is_vendor_payload_witness :
  let w := {| Runner.file := Runner.FileNotFound;
              Runner.client_connect := None;
              Runner.callbacks := fun _ => [];
              Runner.publish := fun _ => Runner.Published 0;
              Runner.input := fun _ => Runner.Line "" |} in
  let self := {| Runner.mqtt_host := "localhost"; Runner.mqtt_port := 1883;
                 Runner.mqtt_topic := "smartir/send_command";
                 Runner.mqtt_username := None; Runner.mqtt_password := None |} in
  let s := {| Runner.trace := []; Runner.reads := 0; Runner.publishes := 0;
              Runner.inputs := 0; Runner.client := Some Runner.PahoClient;
              Runner.connected := true |} in
  exists payload,
    filter is_publish (Runner.trace (snd (Runner.send_command w self "on" "X1" s))) =
    (filter is_publish (Runner.trace s)
     ++ [Runner.Publish (Runner.mqtt_topic self) payload])%list
    /\ Controller.calls
         (snd (Controller.send
                 {| Controller.cls := Controller.UFOR11Controller;
                    Controller._controller := "UFOR11";
                    Controller._encoding := "Raw";
                    Controller._controller_data := "ir/topic";
                    Controller._delay := 0 |} "X1" Controller.quiet_hass)) =
       (Controller.calls Controller.quiet_hass
        ++ [{| Controller.domain := "mqtt"; Controller.service := "publish";
               Controller.service_data :=
                 [("topic", "ir/topic"); ("payload", payload)] |}])%list
    /\ payload <> "X1".
Proof.
  intros w self s.
  exact (runner_payload_is_vendor_payload w self "on" "X1" s
           "UFOR11" "Raw" "ir/topic" 0 Controller.quiet_hass eq_refl eq_refl).
Defined.

End Envelope.

(* ================================================================= *)
(** ** The factory *)

Section RegistryMore.

Import Controller.

(** X21: Whatever the controller kind, [get_controller] succeeds exactly when
    the encoding is Raw; it never raises the unsupported-controller error,
    its [except KeyError] branch being unreachable; what it raises is the
    UFO-R11 encoding error; and it makes no service call. *)
Theorem get_controller_only_checks_encoding controller encoding controller_data
    delay hass :
  let out := get_controller controller encoding controller_data delay hass in
  snd out = hass
  /\ ((exists instance, fst out = Ok instance) <-> encoding = ENC_RAW)
  /\ (forall instance, fst out = Ok instance ->
        cls instance = UFOR11Controller
        /\ _controller instance = controller
        /\ _controller_data instance = controller_data)
  /\ (forall e, fst out = Raise e ->
        ~ UnsupportedControllerError e
        /\ e = Exception "The encoding is not supported by the UFO-R11 controller.").
Proof.
  intros out. subst out.
  unfold get_controller, try_except, new, bind, ret.
  rewrite check_encoding_supported. cbn [supported_encodings].
  unfold UFOR11_COMMANDS_ENCODING, py_in. cbn [existsb orb].
  rewrite orb_false_r.
  destruct (String.eqb encoding ENC_RAW) eqn:Henc; cbn [fst snd].
  - apply String.eqb_eq in Henc.
    split; [reflexivity | split; [ | split]].
    + split; [intros _; exact Henc | intros _; eexists; reflexivity].
    + intros instance H. injection H as H. subst instance. cbn. auto.
    + intros e H. discriminate H.
  - apply String.eqb_neq in Henc.
    split; [reflexivity | split; [ | split]].
    + split; [intros (instance & H); discriminate H | intros H; contradiction].
    + intros instance H. discriminate H.
    + intros e H. injection H as H. subst e.
      split; [ | reflexivity]. unfold UnsupportedControllerError. discriminate.
Qed.

Lemma get_controller_only_checks_encoding_witness :
  ~ UnsupportedControllerError
      (Exception "The encoding is not supported by the UFO-R11 controller.")
  /\ Exception "The encoding is not supported by the UFO-R11 controller." =
     Exception "The encoding is not supported by the UFO-R11 controller.".
Proof.
  refine (proj2 (proj2 (proj2 (get_controller_only_checks_encoding
                                 "Broadlink" ENC_HEX "ir/topic" 0 quiet_hass)))
            (Exception "The encoding is not supported by the UFO-R11 controller.")
            _).
  reflexivity.
Defined.

End RegistryMore.
